(** * Controll Supervisor add-on: configuration reconciliation, auth gate,
      heartbeat and discovery, embedded from [controll-supervisor/run.py]. *)

From Stdlib Require Import Ascii ZArith Lia.
From stdpp Require Import base option list strings pretty gmap.

Local Open Scope Z_scope.
Local Open Scope nat_scope.

(** ** Python [str] primitives used by the add-on *)

Module Py.

(** The two characters that cannot be typed inside a literal. *)
Definition dq : string := String "034"%char "".
Definition nl : string := String "010"%char "".

(** [s.startswith(p)] *)
Fixpoint startswith (s p : string) : bool :=
  match p with
  | "" => true
  | String b p' =>
      match s with
      | "" => false
      | String a s' => if Ascii.eqb a b then startswith s' p' else false
      end
  end.

(** [sub in s] *)
Fixpoint contains (sub s : string) : bool :=
  startswith s sub ||
  match s with
  | "" => false
  | String _ s' => contains sub s'
  end.

(** [s[n:]] for a non-negative [n] *)
Fixpoint slice_from (n : nat) (s : string) : string :=
  match n, s with
  | O, _ => s
  | S _, "" => ""
  | S k, String _ s' => slice_from k s'
  end.

(** [s.replace(old, new)]: every non-overlapping occurrence, scanning from
    the left.  [skip] counts the characters of an occurrence that has just
    been replaced and are still to be consumed. *)
Fixpoint replace_from (old new : string) (skip : nat) (s : string) : string :=
  match s with
  | "" => ""
  | String c s' =>
      match skip with
      | S k => replace_from old new k s'
      | O =>
          if startswith s old
          then new +:+ replace_from old new (String.length old - 1) s'
          else String c (replace_from old new 0 s')
      end
  end.

(** With an empty [old], Python puts [new] before every character and at
    the end. *)
Fixpoint replace_empty (new s : string) : string :=
  match s with
  | "" => new
  | String c s' => new +:+ String c (replace_empty new s')
  end.

Definition replace (s old new : string) : string :=
  match old with
  | "" => replace_empty new s
  | String _ _ => replace_from old new 0 s
  end.

(** [s.split(sep)] for a non-empty [sep]: the first field and the list of the
    following ones. *)
Fixpoint split_from (sep : string) (skip : nat) (s : string) : string * list string :=
  match s with
  | "" => ("", [])
  | String c s' =>
      match skip with
      | S k => split_from sep k s'
      | O =>
          if startswith s sep
          then let '(f, r) := split_from sep (String.length sep - 1) s' in ("", f :: r)
          else let '(f, r) := split_from sep 0 s' in (String c f, r)
      end
  end.

Definition split (s sep : string) : list string :=
  let '(f, r) := split_from sep 0 s in f :: r.

(** [sep.join(parts)] *)
Fixpoint join (sep : string) (parts : list string) : string :=
  match parts with
  | [] => ""
  | [p] => p
  | p :: ps => p +:+ sep +:+ join sep ps
  end.

(** The characters of a string, in order. *)
Definition chars (s : string) : list ascii := String.list_ascii_of_string s.

(** ASCII case folding, as the header table compares field names. *)
Definition lower_ascii (c : ascii) : ascii :=
  let n := nat_of_ascii c in
  if (65 <=? n) && (n <=? 90) then ascii_of_nat (n + 32) else c.

Fixpoint lower (s : string) : string :=
  match s with
  | "" => ""
  | String c s' => String (lower_ascii c) (lower s')
  end.

(** [repr(s)] of a [str].  The quote is the single one; it is the double one
    when the text has a single quote and no double one.  A backslash and the quote get a backslash in front, tab,
    line feed and carriage return are written with their letter, any other
    control character as [\x] and two hexadecimal digits.  Bytes above 127
    are kept: they are read as the encoding of printable characters. *)
Definition hex_digit (n : nat) : ascii :=
  nth n (chars "0123456789abcdef") "0"%char.

Definition repr_char (q c : ascii) : string :=
  let n := nat_of_ascii c in
  if Ascii.eqb c "\" then "\\"
  else if Ascii.eqb c q then String "\" (String q "")
  else if Ascii.eqb c "009" then "\t"
  else if Ascii.eqb c "010" then "\n"
  else if Ascii.eqb c "013" then "\r"
  else if (n <? 32) || (n =? 127)
       then "\x" +:+ String (hex_digit (n / 16)) (String (hex_digit (n mod 16)) "")
       else String c "".

Fixpoint repr_chars (q : ascii) (s : string) : string :=
  match s with
  | "" => ""
  | String c s' => repr_char q c +:+ repr_chars q s'
  end.

Definition repr (s : string) : string :=
  let q := if contains "'" s && negb (contains dq s) then "034"%char else "'"%char in
  String q (repr_chars q s +:+ String q "").

End Py.

(** ** JSON values, exceptions and results *)

#[warnings="-register-all"]
Inductive json :=
  | JNull
  | JBool (b : bool)
  | JInt (n : Z)
  | JStr (s : string)
  | JList (l : list json)
  | JDict (kv : list (string * json)).

(** [d.get(k)] on the items of a dict *)
Fixpoint dict_get (kv : list (string * json)) (k : string) : option json :=
  match kv with
  | [] => None
  | (k', v) :: kv' => if String.eqb k k' then Some v else dict_get kv' k
  end.

(** [repr(v)] of a value as [json.loads] gives it, and [str(v)], which is
    what an f-string puts for it. *)
Fixpoint json_repr (v : json) : string :=
  match v with
  | JNull => "None"
  | JBool b => if b then "True" else "False"
  | JInt n => pretty n
  | JStr s => Py.repr s
  | JList l => "[" +:+ Py.join ", " (List.map json_repr l) +:+ "]"
  | JDict kv =>
      "{" +:+ Py.join ", " (List.map (λ p, Py.repr p.1 +:+ ": " +:+ json_repr p.2) kv) +:+ "}"
  end.

Definition json_str (v : json) : string :=
  match v with
  | JStr s => s
  | _ => json_repr v
  end.

Inductive errno := ENOENT | EEXIST | ENOTDIR | EISDIR.

Definition errno_num (e : errno) : string :=
  match e with ENOENT => "2" | EEXIST => "17" | ENOTDIR => "20" | EISDIR => "21" end.

Definition strerror (e : errno) : string :=
  match e with
  | ENOENT => "No such file or directory"
  | EEXIST => "File exists"
  | ENOTDIR => "Not a directory"
  | EISDIR => "Is a directory"
  end.

Inductive exn :=
  | OSError (e : errno) (filename : string)
  | NameError (name : string)
  | ModuleNotFoundError (name : string)
  | AttributeError (msg : string)
  | TypeError (msg : string)
  | IndexError (msg : string)
  | ClientError (msg : string).

(** [str(e)] *)
Definition exn_str (e : exn) : string :=
  match e with
  | OSError n f => "[Errno " +:+ errno_num n +:+ "] " +:+ strerror n +:+ ": " +:+ Py.repr f
  | NameError n => "name '" +:+ n +:+ "' is not defined"
  | ModuleNotFoundError n => "No module named " +:+ Py.repr n
  | AttributeError m | TypeError m | IndexError m | ClientError m => m
  end.

Inductive result (A : Type) :=
  | Ok (a : A)
  | Raise (e : exn).
Arguments Ok {A} a.
Arguments Raise {A} e.

(** ** pathlib paths and the file system under them *)

Module Path.

(** An absolute path, as its components below the root. *)
Abbreviation t := (list string).

(** Components of a path string: empty and [.] components are dropped,
    [..] is kept. *)
Definition parse (s : string) : list string :=
  filter (λ c, c ≠ "" ∧ c ≠ ".") (Py.split s "/").

(** [base / s] *)
Definition joinpath (base : t) (s : string) : t :=
  if Py.startswith s "/" then parse s else base ++ parse s.

(** [str(p)] *)
Definition str (p : t) : string := "/" +:+ Py.join "/" p.

(** [p.parent] *)
Definition parent (p : t) : t := removelast p.

End Path.

Inductive node := Dir | File (content : string).

Abbreviation fs := (gmap (list string) node).

Module Fs.

Definition node_at (f : fs) (p : Path.t) : option node :=
  match p with
  | [] => Some Dir
  | _ :: _ => f !! p
  end.

(** Walk through directory components from [cur]. *)
Fixpoint walk (f : fs) (cur : Path.t) (comps : list string) : errno + Path.t :=
  match comps with
  | [] => inr cur
  | c :: rest =>
      if decide (c = "..") then walk f (removelast cur) rest
      else match f !! (cur ++ [c]) with
           | Some Dir => walk f (cur ++ [c]) rest
           | Some (File _) => inl ENOTDIR
           | None => inl ENOENT
           end
  end.

(** Where the path leads: its directory must exist, its last component
    need not. *)
Definition locate (f : fs) (p : Path.t) : errno + Path.t :=
  match p with
  | [] => inr []
  | _ :: _ =>
      match walk f [] (removelast p) with
      | inl e => inl e
      | inr d =>
          let c := List.last p "" in
          if decide (c = "..") then inr (removelast d) else inr (d ++ [c])
      end
  end.

Definition stat (f : fs) (p : Path.t) : errno + node :=
  match locate f p with
  | inl e => inl e
  | inr q => match node_at f q with Some n => inr n | None => inl ENOENT end
  end.

Definition exists_ (f : fs) (p : Path.t) : bool :=
  match stat f p with inr _ => true | inl _ => false end.

Definition is_dir (f : fs) (p : Path.t) : bool :=
  match stat f p with inr Dir => true | _ => false end.

(** [os.mkdir(p)] *)
Definition os_mkdir (f : fs) (p : Path.t) : result fs :=
  match locate f p with
  | inl e => Raise (OSError e (Path.str p))
  | inr q =>
      match node_at f q with
      | Some _ => Raise (OSError EEXIST (Path.str p))
      | None => Ok (<[q := Dir]> f)
      end
  end.

(** [p.mkdir(exist_ok=True)] *)
Definition mkdir_exist_ok (f : fs) (p : Path.t) : result fs :=
  match os_mkdir f p with
  | Ok f' => Ok f'
  | Raise e =>
      match e with
      | OSError ENOENT _ => Raise e
      | _ => if is_dir f p then Ok f else Raise e
      end
  end.

(** [p.mkdir(parents=True, exist_ok=True)], by recursion on the reversed
    components: a missing directory makes the parent first. *)
Fixpoint mkdir_parents_rev (rp : list string) (f : fs) : result fs :=
  let p := rev rp in
  match os_mkdir f p with
  | Ok f' => Ok f'
  | Raise e =>
      match e with
      | OSError ENOENT _ =>
          match rp with
          | [] => Raise e
          | _ :: rparent =>
              match mkdir_parents_rev rparent f with
              | Ok f1 => mkdir_exist_ok f1 p
              | Raise e1 => Raise e1
              end
          end
      | _ => if is_dir f p then Ok f else Raise e
      end
  end.

Definition mkdir_parents (f : fs) (p : Path.t) : result fs :=
  mkdir_parents_rev (rev p) f.

(** [p.read_text()] *)
Definition read_text (f : fs) (p : Path.t) : result string :=
  match stat f p with
  | inl e => Raise (OSError e (Path.str p))
  | inr Dir => Raise (OSError EISDIR (Path.str p))
  | inr (File c) => Ok c
  end.

(** [open(p, mode)] for writing followed by [write(text)]; [keep] is what
    the mode leaves of an existing file ([w] nothing, [a] all of it). *)
Definition open_write (keep : string → string) (f : fs) (p : Path.t) (text : string)
  : result fs :=
  match locate f p with
  | inl e => Raise (OSError e (Path.str p))
  | inr q =>
      match node_at f q with
      | Some Dir => Raise (OSError EISDIR (Path.str p))
      | Some (File old) => Ok (<[q := File (keep old +:+ text)]> f)
      | None => Ok (<[q := File text]> f)
      end
  end.

(** [p.write_text(text)] *)
Definition write_text := open_write (λ _, "").

(** [with open(p, "a") as f: f.write(text)] *)
Definition append_text := open_write (λ old, old).

End Fs.

(** ** The world the add-on runs in, and its effects *)

Inductive level := DEBUG | INFO | WARNING | ERROR.

Inductive event :=
  | EvLog (l : level) (msg : string)
  | EvMkdir (p : string)
  | EvWrite (p : string) (text : string)
  | EvAppend (p : string) (text : string)
  | EvHttp (method url : string) (headers : list (string * string)) (body : option json)
  | EvSleep (seconds : Z).

Record world := World { w_fs : fs; w_trace : list event }.

(** A computation may change the world and then return or raise; what it did
    before raising stays done. *)
Definition M (A : Type) : Type := world → result A * world.

Definition ret {A} (a : A) : M A := λ w, (Ok a, w).

Definition raise {A} (e : exn) : M A := λ w, (Raise e, w).

Definition bind {A B} (m : M A) (k : A → M B) : M B :=
  λ w, match m w with
       | (Ok a, w') => k a w'
       | (Raise e, w') => (Raise e, w')
       end.

(** [try: m  except Exception as e: h e] *)
Definition try_except {A} (m : M A) (h : exn → M A) : M A :=
  λ w, match m w with
       | (Ok a, w') => (Ok a, w')
       | (Raise e, w') => h e w'
       end.

Global Instance M_ret : MRet M := @ret.
Global Instance M_bind : MBind M := λ A B k m, bind m k.

Definition of_result {A} (r : result A) : M A := λ w, (r, w).

Definition emit (e : event) : M unit :=
  λ w, (Ok tt, World (w_fs w) (w_trace w ++ [e])).

Definition log (l : level) (msg : string) : M unit := emit (EvLog l msg).

(** A file-system change, recorded in the trace when it succeeds. *)
Definition fs_update (op : fs → result fs) (e : event) : M unit :=
  λ w, match op (w_fs w) with
       | Ok f' => (Ok tt, World f' (w_trace w ++ [e]))
       | Raise x => (Raise x, w)
       end.

Definition fs_query {A} (q : fs → A) : M A := λ w, (Ok (q (w_fs w)), w).

Definition mkdir (p : Path.t) : M unit :=
  fs_update (λ f, Fs.mkdir_exist_ok f p) (EvMkdir (Path.str p)).

Definition mkdir_parents (p : Path.t) : M unit :=
  fs_update (λ f, Fs.mkdir_parents f p) (EvMkdir (Path.str p)).

Definition write_text (p : Path.t) (text : string) : M unit :=
  fs_update (λ f, Fs.write_text f p text) (EvWrite (Path.str p) text).

Definition append_text (p : Path.t) (text : string) : M unit :=
  fs_update (λ f, Fs.append_text f p text) (EvAppend (Path.str p) text).

Definition path_exists (p : Path.t) : M bool := fs_query (λ f, Fs.exists_ f p).

(** The text of a file as it is stored. *)
Definition read_text (p : Path.t) : M string :=
  λ w, (Fs.read_text (w_fs w) p, w).

(** Text as a file opened for reading hands it over: a carriage return, with
    or without a line feed after it, becomes a line feed. *)
Fixpoint universal_newlines (s : string) : string :=
  match s with
  | "" => ""
  | String c s' =>
      if Ascii.eqb c "013"
      then match s' with
           | String d s'' =>
               if Ascii.eqb d "010"
               then String "010" (universal_newlines s'')
               else String "010" (universal_newlines s')
           | "" => String "010" ""
           end
      else String c (universal_newlines s')
  end.

(** [p.read_text()] as the reader of the text sees it. *)
Definition read_text_universal (p : Path.t) : M string :=
  text ← read_text p; ret (universal_newlines text).

(** ** Requests and responses *)

(** An inbound request: its header fields, and what [await request.json()]
    gives.  Bodies are JSON objects with string fields. *)
Record request := Request {
  req_headers : list (string * string);
  req_json : result (gmap string string)
}.

(** [request.headers.get(name, default)]: field names compare without case,
    the first field wins. *)
Fixpoint headers_get (h : list (string * string)) (name default : string) : string :=
  match h with
  | [] => default
  | (k, v) :: h' =>
      if String.eqb (Py.lower k) (Py.lower name) then v else headers_get h' name default
  end.

Record response := Response { status : nat; body : json }.

(** [web.json_response(data, status=...)] *)
Definition json_response (data : list (string * json)) (st : nat) : response :=
  Response st (JDict data).

(** What [session.get] and [session.post] meet outside the process. *)
Record http_env := HttpEnv {
  (** [session.get(url, headers=...)] followed by [resp.json()] *)
  http_get_json : string → result json;
  (** [session.post(url, json=...)], giving [resp.status] *)
  http_post_status : string → json → result nat
}.

(** [/data/options.json], with the fields the add-on reads. *)
Record options := Options {
  opt_hub_token : option string;
  opt_platform_url : option string;
  opt_heartbeat_interval : option Z
}.

(** ** The add-on *)

Definition unlines (ls : list string) : string :=
  foldr (λ l acc, l +:+ Py.nl +:+ acc) "" ls.

(** The theme text, line by line as the source gives it. *)
Definition CONTROLL_THEME : string := unlines [
    "controll:";
    "  # Primary orange from controll.it";
    "  primary-color: " +:+ Py.dq +:+ "#f97316" +:+ Py.dq;
    "  accent-color: " +:+ Py.dq +:+ "#ea580c" +:+ Py.dq;
    "";
    "  # Header - white with orange accent";
    "  app-header-background-color: " +:+ Py.dq +:+ "#ffffff" +:+ Py.dq;
    "  app-header-text-color: " +:+ Py.dq +:+ "#1f2937" +:+ Py.dq;
    "";
    "  # Sidebar - clean white/light gray";
    "  sidebar-background-color: " +:+ Py.dq +:+ "#f8fafc" +:+ Py.dq;
    "  sidebar-text-color: " +:+ Py.dq +:+ "#374151" +:+ Py.dq;
    "  sidebar-selected-background-color: " +:+ Py.dq +:+ "#f97316" +:+ Py.dq;
    "  sidebar-selected-icon-color: " +:+ Py.dq +:+ "#ffffff" +:+ Py.dq;
    "  sidebar-selected-text-color: " +:+ Py.dq +:+ "#ffffff" +:+ Py.dq;
    "  sidebar-icon-color: " +:+ Py.dq +:+ "#6b7280" +:+ Py.dq;
    "";
    "  # Cards - white with subtle shadow";
    "  card-background-color: " +:+ Py.dq +:+ "#ffffff" +:+ Py.dq;
    "  ha-card-background: " +:+ Py.dq +:+ "#ffffff" +:+ Py.dq;
    "  ha-card-border-radius: " +:+ Py.dq +:+ "8px" +:+ Py.dq;
    "  ha-card-box-shadow: " +:+ Py.dq +:+ "0 1px 3px rgba(0, 0, 0, 0.1)" +:+ Py.dq;
    "";
    "  # Text colors";
    "  primary-text-color: " +:+ Py.dq +:+ "#1f2937" +:+ Py.dq;
    "  secondary-text-color: " +:+ Py.dq +:+ "#6b7280" +:+ Py.dq;
    "  text-primary-color: " +:+ Py.dq +:+ "#1f2937" +:+ Py.dq;
    "";
    "  # Background - light gray";
    "  background-color: " +:+ Py.dq +:+ "#f3f4f6" +:+ Py.dq;
    "  primary-background-color: " +:+ Py.dq +:+ "#f3f4f6" +:+ Py.dq;
    "  secondary-background-color: " +:+ Py.dq +:+ "#ffffff" +:+ Py.dq;
    "";
    "  # UI elements";
    "  divider-color: " +:+ Py.dq +:+ "#e5e7eb" +:+ Py.dq;
    "  state-icon-color: " +:+ Py.dq +:+ "#374151" +:+ Py.dq;
    "  state-on-color: " +:+ Py.dq +:+ "#f97316" +:+ Py.dq;
    "  state-off-color: " +:+ Py.dq +:+ "#9ca3af" +:+ Py.dq;
    "";
    "  # Switches";
    "  switch-checked-color: " +:+ Py.dq +:+ "#f97316" +:+ Py.dq;
    "  switch-unchecked-button-color: " +:+ Py.dq +:+ "#9ca3af" +:+ Py.dq;
    "  switch-unchecked-track-color: " +:+ Py.dq +:+ "#d1d5db" +:+ Py.dq;
    "";
    "  # Material design";
    "  mdc-theme-primary: " +:+ Py.dq +:+ "#f97316" +:+ Py.dq;
    "";
    "  # Inputs";
    "  input-fill-color: " +:+ Py.dq +:+ "#f9fafb" +:+ Py.dq;
    "  input-ink-color: " +:+ Py.dq +:+ "#1f2937" +:+ Py.dq;
    "  input-label-ink-color: " +:+ Py.dq +:+ "#6b7280" +:+ Py.dq
  ].

Definition HA_CONFIG_PATH : string := "/config".
Definition SUPERVISOR_API : string := "http://supervisor".
Definition HA_API : string := "http://supervisor/core/api".

(** The names bound at module level when a handler runs: the imports and the
    module's own constants and functions. *)
Definition module_globals : list string :=
  [ "asyncio"; "json"; "os"; "logging"; "Path"; "datetime"; "web"; "ClientSession";
    "CONTROLL_THEME"; "CONFIG_PATH"; "HA_CONFIG_PATH"; "SUPERVISOR_API"; "HA_API";
    "f"; "OPTIONS"; "HUB_TOKEN"; "PLATFORM_URL"; "HEARTBEAT_INTERVAL"; "LOG_LEVEL";
    "logger"; "SUPERVISOR_TOKEN"; "get_supervisor_headers"; "verify_token";
    "handle_file_write"; "handle_file_read"; "handle_file_list"; "handle_ha_service";
    "handle_ha_restart"; "handle_ha_config"; "handle_ha_states"; "handle_addon_list";
    "handle_addon_install"; "handle_system_info"; "handle_discovery";
    "handle_install_theme"; "handle_set_branding"; "handle_health"; "send_heartbeat";
    "install_controll_branding"; "main" ].

(** Looking up a global name that no local binds. *)
Definition lookup_global (name : string) : result unit :=
  if bool_decide (name ∈ module_globals) then Ok tt else Raise (NameError name).

(** The text blocks the reconciliation writes. *)
Definition THEMES_LINE : string := "  themes: !include_dir_merge_named themes".

Definition startup_name_block : string :=
  Py.nl +:+ Py.nl +:+ "homeassistant:" +:+ Py.nl +:+ "  name: Controll" +:+ Py.nl.

Definition startup_frontend_block : string :=
  Py.nl +:+ "frontend:" +:+ Py.nl +:+ THEMES_LINE +:+ Py.nl.

Definition frontend_with_themes : string := "frontend:" +:+ Py.nl +:+ THEMES_LINE.

Definition request_frontend_block : string :=
  Py.nl +:+ Py.nl +:+ "# Controll themes" +:+ Py.nl +:+ "frontend:" +:+ Py.nl
  +:+ THEMES_LINE +:+ Py.nl.

Definition request_name_block (name : string) : string :=
  Py.nl +:+ Py.nl +:+ "homeassistant:" +:+ Py.nl +:+ "  name: " +:+ name +:+ Py.nl.

(** [install_controll_branding], "Add homeassistant name if not present":
    the new text and whether it changed. *)
Definition add_controll_name (config_content : string) : string * bool :=
  if negb (Py.contains "name: Controll" config_content)
     && negb (Py.contains ("name: " +:+ Py.dq +:+ "Controll" +:+ Py.dq) config_content)
  then
    if negb (Py.contains "homeassistant:" config_content)
    then (config_content +:+ startup_name_block, true)
    else (config_content, false)
  else (config_content, false).

(** [install_controll_branding], "Add themes config if not present". *)
Definition add_themes_config (config_content : string) : string * bool :=
  if negb (Py.contains "themes:" config_content)
  then
    if negb (Py.contains "frontend:" config_content)
    then (config_content +:+ startup_frontend_block, true)
    else (Py.replace config_content "frontend:" frontend_with_themes, true)
  else (config_content, false).

(** The two start-up steps in sequence: the text [install_controll_branding]
    arrives at and its [changed] flag. *)
Definition reconcile (config_content : string) : string * bool :=
  let '(with_name, named) := add_controll_name config_content in
  let '(with_themes, themed) := add_themes_config with_name in
  (with_themes, named || themed).

(** [Path(HA_CONFIG_PATH)] and the two files below it. *)
Definition config_dir : Path.t := Path.parse HA_CONFIG_PATH.
Definition themes_dir : Path.t := Path.joinpath config_dir "themes".
Definition config_file : Path.t := Path.joinpath config_dir "configuration.yaml".
(** [themes_dir / "controll.yaml"], where start-up puts the vendor theme. *)
Definition theme_file : Path.t := Path.joinpath themes_dir "controll.yaml".

(** [config_file.read_text() if config_file.exists()], else the empty text *)
Definition read_config : M string :=
  path_exists config_file ≫= λ ex : bool,
  if ex then read_text_universal config_file else ret "".

Definition when (b : bool) (m : M unit) : M unit := if b then m else ret tt.

Definition install_controll_branding : M unit :=
  log INFO "Installing Controll branding...";;
  mkdir themes_dir;;
  write_text theme_file CONTROLL_THEME;;
  log INFO "Controll theme installed";;
  config_content ← read_config;
  let '(with_name, named) := add_controll_name config_content in
  when named (log INFO "Added Controll name");;
  let '(with_themes, themed) := add_themes_config with_name in
  when themed (log INFO "Added themes configuration");;
  let changed := named || themed in
  when changed (write_text config_file with_themes;;
                log INFO "Configuration updated - restart HA to apply");;
  log INFO "Controll branding installation complete".

(** [handle_install_theme], "Check if themes are configured in
    configuration.yaml". *)
Definition add_theme_configuration : M unit :=
  config_content ← read_config;
  when (negb (Py.contains "themes:" config_content))
    (append_text config_file request_frontend_block;;
     log INFO "Added theme configuration to configuration.yaml").

(** [type(v).__name__], for the messages of dynamic type errors. *)
Definition type_name (v : json) : string :=
  match v with
  | JNull => "NoneType" | JBool _ => "bool" | JInt _ => "int"
  | JStr _ => "str" | JList _ => "list" | JDict _ => "dict"
  end.

(** [v.get(k, d)] *)
Definition py_get (v : json) (k : string) (d : json) : result json :=
  match v with
  | JDict kv => Ok (default d (dict_get kv k))
  | _ => Raise (AttributeError ("'" +:+ type_name v +:+ "' object has no attribute 'get'"))
  end.

(** [len(v)] *)
Definition py_len (v : json) : result Z :=
  match v with
  | JStr s => Ok (Z.of_nat (String.length s))
  | JList l => Ok (Z.of_nat (length l))
  | JDict kv => Ok (Z.of_nat (length kv))
  | _ => Raise (TypeError ("object of type '" +:+ type_name v +:+ "' has no len()"))
  end.

Section Addon.

(** What the process is started with. *)
Variable OPTIONS : options.
Variable SUPERVISOR_TOKEN : string.
(** What is outside the process. *)
Variable net : http_env.
Variable yaml_installed : bool.
(** The host scan of [handle_discovery] from its first statement on, once
    the name [subprocess] is bound: the entries it appends to [discovered]
    and the exception it ends with, if any. *)
Variable scan_hosts : world → (list json * option exn) * world.

Definition HUB_TOKEN : string := default "" (opt_hub_token OPTIONS).
Definition PLATFORM_URL : string :=
  default "https://api.controll.it" (opt_platform_url OPTIONS).
Definition HEARTBEAT_INTERVAL : Z := default 300%Z (opt_heartbeat_interval OPTIONS).

Definition get_supervisor_headers : list (string * string) :=
  [ ("Authorization", "Bearer " +:+ SUPERVISOR_TOKEN);
    ("Content-Type", "application/json") ].

Definition verify_token (request : request) : bool :=
  let auth := headers_get (req_headers request) "Authorization" "" in
  if negb (Py.startswith auth "Bearer ") then false
  else
    let token := Py.slice_from 7 auth in
    String.eqb token HUB_TOKEN.

Definition unauthorized : response :=
  json_response [("error", JStr "Unauthorized")] 401.

Definition error_response (e : exn) : response :=
  json_response [("error", JStr (exn_str e))] 500.

(** [async with session.get(url, headers=get_supervisor_headers()) as resp:
    await resp.json()] *)
Definition get_event (url : string) : event :=
  EvHttp "GET" url get_supervisor_headers None.

Definition session_get_json (url : string) : M json :=
  emit (get_event url);;
  of_result (http_get_json net url).

(** *** File operations *)

Definition handle_file_write (request : request) : M response :=
  if negb (verify_token request) then ret unauthorized
  else
    try_except
      (data ← of_result (req_json request);
       let path := default "" (data !! "path") in
       let content := default "" (data !! "content") in
       if Py.contains ".." path || Py.startswith path "/"
       then ret (json_response [("error", JStr "Invalid path")] 400)
       else
         let full_path := Path.joinpath config_dir path in
         mkdir_parents (Path.parent full_path);;
         write_text full_path content;;
         log INFO ("Wrote file: " +:+ path);;
         ret (json_response [("success", JBool true); ("path", JStr path)] 200))
      (λ e, log ERROR ("File write error: " +:+ exn_str e);;
            ret (error_response e)).

(** *** Discovery *)

Definition port_scan : world → (list json * option exn) * world :=
  λ w, match lookup_global "subprocess" with
       | Raise e => (([], Some e), w)
       | Ok _ => scan_hosts w
       end.

(** The scan inside its own [try]: a failure is logged and what was found
    so far is kept. *)
Definition scan_network : M (list json) :=
  λ w, let '((found, failure), w') := port_scan w in
       match failure with
       | Some e => (log WARNING ("Network scan failed: " +:+ exn_str e);; ret found) w'
       | None => (Ok found, w')
       end.

Definition handle_discovery (request : request) : M response :=
  if negb (verify_token request) then ret unauthorized
  else
    try_except
      (network ← session_get_json (SUPERVISOR_API +:+ "/network/info");
       discovered ← scan_network;
       ret (json_response [("success", JBool true); ("discovered", JList discovered)] 200))
      (λ e, log ERROR ("Discovery error: " +:+ exn_str e);;
            ret (error_response e)).

(** *** Theme installation *)

Definition handle_install_theme (request : request) : M response :=
  if negb (verify_token request) then ret unauthorized
  else
    try_except
      (data ← of_result (req_json request);
       let theme_name := default "controll" (data !! "name") in
       let theme_content := default "" (data !! "content") in
       mkdir themes_dir;;
       let theme_file := Path.joinpath themes_dir (theme_name +:+ ".yaml") in
       write_text theme_file theme_content;;
       add_theme_configuration;;
       log INFO ("Installed theme: " +:+ theme_name);;
       ret (json_response
              [ ("success", JBool true);
                ("message", JStr ("Theme '" +:+ theme_name
                                  +:+ "' installed. Restart HA to apply."));
                ("restart_required", JBool true) ] 200))
      (λ e, log ERROR ("Theme install error: " +:+ exn_str e);;
            ret (error_response e)).

(** *** Branding *)

(** [import yaml] *)
Definition import_yaml : M unit :=
  if yaml_installed then ret tt else raise (ModuleNotFoundError "yaml").

(** [handle_set_branding], "Check if homeassistant: section exists". *)
Definition add_branding (name : string) : M unit :=
  config_content ← read_config;
  if negb (Py.contains "homeassistant:" config_content)
  then append_text config_file (request_name_block name)
  else
    import_yaml;;
    log WARNING "homeassistant: section exists, manual update may be needed".

Definition handle_set_branding (request : request) : M response :=
  if negb (verify_token request) then ret unauthorized
  else
    try_except
      (data ← of_result (req_json request);
       let name := default "Controll" (data !! "name") in
       add_branding name;;
       ret (json_response
              [ ("success", JBool true);
                ("message", JStr ("Branding set to '" +:+ name
                                  +:+ "'. Restart HA to apply."));
                ("restart_required", JBool true) ] 200))
      (λ e, log ERROR ("Branding error: " +:+ exn_str e);;
            ret (error_response e)).

(** *** Heartbeat *)

(** [HUB_TOKEN.split("_")[0] if "_" in HUB_TOKEN else "unknown"] *)
Definition device_id : result string :=
  if Py.contains "_" HUB_TOKEN
  then match Py.split HUB_TOKEN "_" !! 0 with
       | Some d => Ok d
       | None => Raise (IndexError "list index out of range")
       end
  else Ok "unknown".

(** The first [try]: the version of the core. *)
Definition fetch_ha_version : M json :=
  core ← session_get_json (SUPERVISOR_API +:+ "/core/info");
  data ← of_result (py_get core "data" (JDict []));
  of_result (py_get data "version" JNull).

(** The second [try]: the number of states. *)
Definition fetch_entities_count : M json :=
  states ← session_get_json (HA_API +:+ "/states");
  n ← of_result (py_len states);
  ret (JInt n).

(** [info[key] = fetch], inside [try: ... except: pass]. *)
Definition collect (key : string) (fetch : M json) (info : gmap string json)
  : M (gmap string json) :=
  try_except (v ← fetch; ret (<[key := v]> info)) (λ _, ret info).

(** What the two fetches leave in [info], given how each ended. *)
Definition info_after (rv rc : result json) : gmap string json :=
  let first := match rv with Ok v => <["ha_version" := v]> ∅ | Raise _ => ∅ end in
  match rc with Ok n => <["entities_count" := n]> first | Raise _ => first end.

Definition heartbeat_payload (info : gmap string json) : result json :=
  match device_id with
  | Raise e => Raise e
  | Ok d =>
      Ok (JDict [ ("device_id", JStr d);
                  ("ha_version", default JNull (info !! "ha_version"));
                  ("entities_count", default (JInt 0) (info !! "entities_count"));
                  ("uptime", JInt 0) ])
  end.

Definition heartbeat_url : string := PLATFORM_URL +:+ "/api/provision/heartbeat".

(** [async with session.post(url, json=payload) as resp: resp.status] *)
Definition session_post (url : string) (payload : json) : M nat :=
  emit (EvHttp "POST" url [] (Some payload));;
  of_result (http_post_status net url payload).

(** The third [try]: compose the payload and post it. *)
Definition post_heartbeat (info : gmap string json) : M unit :=
  try_except
    (payload ← of_result (heartbeat_payload info);
     st ← session_post heartbeat_url payload;
     if bool_decide (st = 200)
     then log DEBUG "Heartbeat sent successfully"
     else log WARNING ("Heartbeat failed: " +:+ pretty st))
    (λ e, log WARNING ("Heartbeat error: " +:+ exn_str e)).

Definition sleep (seconds : Z) : M unit := emit (EvSleep seconds).

(** One turn of the [while True] loop of [send_heartbeat]. *)
Definition heartbeat_cycle : M unit :=
  skipped ← try_except
    (if bool_decide (HUB_TOKEN = "")
     then
       log WARNING "No hub token configured, skipping heartbeat";;
       sleep HEARTBEAT_INTERVAL;;
       ret true
     else
       info ← collect "ha_version" fetch_ha_version ∅;
       info ← collect "entities_count" fetch_entities_count info;
       post_heartbeat info;;
       ret false)
    (λ e, log ERROR ("Heartbeat loop error: " +:+ exn_str e);; ret false);
  if (skipped : bool) then ret tt else sleep HEARTBEAT_INTERVAL.

(** The loop, cut after [n] turns. *)
Fixpoint send_heartbeat (n : nat) : M unit :=
  match n with
  | O => ret tt
  | S k => heartbeat_cycle;; send_heartbeat k
  end.

(** *** Start *)

(** [main] up to the creation of the web application. *)
Definition main_startup : M unit :=
  log INFO "Starting Controll Supervisor Add-on";;
  try_except install_controll_branding
    (λ e, log ERROR ("Failed to install branding: " +:+ exn_str e));;
  log INFO ("Platform URL: " +:+ PLATFORM_URL);;
  log INFO ("Heartbeat interval: " +:+ pretty HEARTBEAT_INTERVAL +:+ "s").

End Addon.


(** The answer of a discovery that found no host, and the line logged when
    the scan stops at the unbound name. *)
Definition discovered_nothing : response :=
  json_response [("success", JBool true); ("discovered", JList [])] 200.

Definition scan_failed : event :=
  EvLog WARNING "Network scan failed: name 'subprocess' is not defined".

(** A theme installation request carrying the token [tok]. *)
Definition theme_request (name content : string) : request :=
  Request [("Authorization", "Bearer tok")]
          (Ok (<["name" := name]> (<["content" := content]> ∅))).

(** The configuration document: the text of [configuration.yaml] as it is
    stored, empty when there is no such file. *)
Definition doc_of (f : fs) : string :=
  match Fs.read_text f config_file with
  | Ok c => c
  | Raise _ => ""
  end.

(** What a computation adds to the trace. *)
Definition events_of {A} (m : M A) (w : world) : list event :=
  drop (length (w_trace w)) (w_trace (m w).2).

(** ** The other handlers and the route table *)

(** [f"{v}"] for a value that may be [None]. *)
Definition fmt (v : option string) : string := default "None" v.

(** The entries of the directory at [q]: name and node of every path one
    component below it, in the order the map gives them. *)
Definition dir_entries (f : fs) (q : Path.t) : list (string * node) :=
  omap (λ '(k, n), match reverse k with
                   | name :: rparent =>
                       if decide (reverse rparent = q) then Some (name, n) else None
                   | [] => None
                   end)
       (map_to_list f).

(** [full_path.iterdir()] *)
Definition iterdir (f : fs) (p : Path.t) : result (list (string * node)) :=
  match Fs.stat f p with
  | inl e => Raise (OSError e (Path.str p))
  | inr (File _) => Raise (OSError ENOTDIR (Path.str p))
  | inr Dir =>
      match Fs.locate f p with
      | inr q => Ok (dir_entries f q)
      | inl e => Raise (OSError e (Path.str p))
      end
  end.

(** One element of [files] in [handle_file_list]. *)
Definition file_entry (item : string * node) : json :=
  JDict [ ("name", JStr item.1);
          ("is_dir", JBool (match item.2 with Dir => true | File _ => false end));
          ("size", JInt (match item.2 with
                         | File c => Z.of_nat (String.length c)
                         | Dir => 0%Z
                         end)) ].

(** What [session.post] meets when no JSON body is sent or the answer is
    read. *)
Record http_more := HttpMore {
  (** [session.post(url, headers=..., json=body)] followed by [resp.json()] *)
  http_post_json : string → json → result json;
  (** [session.post(url, headers=...)]: [resp.status], and what
      [resp.text()] gives *)
  http_post : string → result (nat * result string)
}.

Inductive route :=
  | Health | FileWrite | FileRead | FileList
  | HaService | HaRestart | HaConfig | HaStates
  | AddonList | AddonInstall | SystemInfo | Discovery
  | ThemeInstall | Branding.

(** The routes [main] registers, in its order. *)
Definition routes : list (string * string * route) :=
  [ ("GET", "/health", Health);
    ("POST", "/api/file/write", FileWrite);
    ("GET", "/api/file/read", FileRead);
    ("GET", "/api/file/list", FileList);
    ("POST", "/api/ha/service", HaService);
    ("POST", "/api/ha/restart", HaRestart);
    ("GET", "/api/ha/config", HaConfig);
    ("GET", "/api/ha/states", HaStates);
    ("GET", "/api/addons", AddonList);
    ("POST", "/api/addons/install", AddonInstall);
    ("GET", "/api/system/info", SystemInfo);
    ("POST", "/api/discovery", Discovery);
    ("POST", "/api/theme/install", ThemeInstall);
    ("POST", "/api/branding", Branding) ].

(** The route a request line is for, if one is registered. *)
Definition find_route (method path : string) : option route :=
  match list_find (λ r, r.1.1 = method ∧ r.1.2 = path) routes with
  | Some (_, r) => Some r.2
  | None => None
  end.

Section Routes.

Variable OPTIONS : options.
Variable SUPERVISOR_TOKEN : string.
Variable net : http_env.
Variable more : http_more.
Variable yaml_installed : bool.
Variable scan_hosts : world → (list json * option exn) * world.
(** [datetime.utcnow().isoformat()] at the time of the request. *)
Variable utcnow : string.

(** The body of a request as a JSON value: an object with string fields. *)
Definition request_body (request : request) : result json :=
  match req_json request with
  | Ok data => Ok (JDict (map_to_list (JStr <$> data)))
  | Raise e => Raise e
  end.

Definition invalid_path : response :=
  json_response [("error", JStr "Invalid path")] 400.

(** [async with session.post(url, headers=..., json=body) as resp:
    await resp.json()] *)
Definition session_post_json (url : string) (payload : json) : M json :=
  emit (EvHttp "POST" url (get_supervisor_headers SUPERVISOR_TOKEN) (Some payload));;
  of_result (http_post_json more url payload).

(** [async with session.post(url, headers=...) as resp] *)
Definition session_post_plain (url : string) : M (nat * result string) :=
  emit (EvHttp "POST" url (get_supervisor_headers SUPERVISOR_TOKEN) None);;
  of_result (http_post more url).

Definition handle_file_read (request : request) (query : gmap string string) : M response :=
  if negb (verify_token OPTIONS request) then ret unauthorized
  else
    try_except
      (let path := default "" (query !! "path") in
       if Py.contains ".." path || Py.startswith path "/"
       then ret invalid_path
       else
         let full_path := Path.joinpath config_dir path in
         path_exists full_path ≫= λ ex : bool,
         if negb ex
         then ret (json_response [("error", JStr "File not found")] 404)
         else
           content ← read_text_universal full_path;
           ret (json_response [("success", JBool true); ("content", JStr content)] 200))
      (λ e, log ERROR ("File read error: " +:+ exn_str e);;
            ret (error_response e)).

Definition handle_file_list (request : request) (query : gmap string string) : M response :=
  if negb (verify_token OPTIONS request) then ret unauthorized
  else
    try_except
      (let path := default "" (query !! "path") in
       if Py.contains ".." path
       then ret invalid_path
       else
         let full_path :=
           if bool_decide (path = "") then config_dir else Path.joinpath config_dir path in
         path_exists full_path ≫= λ ex : bool,
         if negb ex
         then ret (json_response [("error", JStr "Path not found")] 404)
         else
           items ← (λ w, (iterdir (w_fs w) full_path, w));
           ret (json_response [ ("success", JBool true);
                                ("files", JList (file_entry <$> items)) ] 200))
      (λ e, log ERROR ("File list error: " +:+ exn_str e);;
            ret (error_response e)).

(** The body of a service call is taken as any value [json.loads] gives:
    [payload] is what [await request.json()] returns or raises. *)
Definition handle_ha_service (request : request) (payload : result json) : M response :=
  if negb (verify_token OPTIONS request) then ret unauthorized
  else
    try_except
      (data ← of_result payload;
       domain ← of_result (py_get data "domain" JNull);
       service ← of_result (py_get data "service" JNull);
       service_data ← of_result (py_get data "data" (JDict []));
       result ← session_post_json
                  (HA_API +:+ "/services/" +:+ json_str domain +:+ "/" +:+ json_str service)
                  service_data;
       ret (json_response [("success", JBool true); ("result", result)] 200))
      (λ e, log ERROR ("Service call error: " +:+ exn_str e);;
            ret (error_response e)).

Definition handle_ha_restart (request : request) : M response :=
  if negb (verify_token OPTIONS request) then ret unauthorized
  else
    try_except
      (resp ← session_post_plain (SUPERVISOR_API +:+ "/core/restart");
       if bool_decide (resp.1 = 200)
       then ret (json_response [ ("success", JBool true);
                                 ("message", JStr "Restart initiated") ] 200)
       else ret (json_response [("error", JStr "Restart failed")] 500))
      (λ e, log ERROR ("Restart error: " +:+ exn_str e);;
            ret (error_response e)).

Definition handle_ha_config (request : request) : M response :=
  if negb (verify_token OPTIONS request) then ret unauthorized
  else
    try_except
      (config ← session_get_json SUPERVISOR_TOKEN net (HA_API +:+ "/config");
       ret (json_response [("success", JBool true); ("config", config)] 200))
      (λ e, log ERROR ("Config error: " +:+ exn_str e);;
            ret (error_response e)).

Definition handle_ha_states (request : request) : M response :=
  if negb (verify_token OPTIONS request) then ret unauthorized
  else
    try_except
      (states ← session_get_json SUPERVISOR_TOKEN net (HA_API +:+ "/states");
       ret (json_response [("success", JBool true); ("states", states)] 200))
      (λ e, log ERROR ("States error: " +:+ exn_str e);;
            ret (error_response e)).

Definition handle_addon_list (request : request) : M response :=
  if negb (verify_token OPTIONS request) then ret unauthorized
  else
    try_except
      (data ← session_get_json SUPERVISOR_TOKEN net (SUPERVISOR_API +:+ "/addons");
       inner ← of_result (py_get data "data" (JDict []));
       addons ← of_result (py_get inner "addons" (JList []));
       ret (json_response [("success", JBool true); ("addons", addons)] 200))
      (λ e, log ERROR ("Addon list error: " +:+ exn_str e);;
            ret (error_response e)).

Definition handle_addon_install (request : request) : M response :=
  if negb (verify_token OPTIONS request) then ret unauthorized
  else
    try_except
      (data ← of_result (req_json request);
       let addon_slug := data !! "slug" in
       resp ← session_post_plain
                (SUPERVISOR_API +:+ "/addons/" +:+ fmt addon_slug +:+ "/install");
       if bool_decide (resp.1 = 200)
       then ret (json_response [ ("success", JBool true);
                                 ("message", JStr ("Installing " +:+ fmt addon_slug)) ] 200)
       else
         error ← of_result resp.2;
         ret (json_response [("error", JStr error)] resp.1))
      (λ e, log ERROR ("Addon install error: " +:+ exn_str e);;
            ret (error_response e)).

(** [info[key] = (await resp.json()).get("data", {})] for one part of the
    system information. *)
Definition info_part (url : string) : M json :=
  answer ← session_get_json SUPERVISOR_TOKEN net url;
  of_result (py_get answer "data" (JDict [])).

Definition handle_system_info (request : request) : M response :=
  if negb (verify_token OPTIONS request) then ret unauthorized
  else
    try_except
      (host ← info_part (SUPERVISOR_API +:+ "/host/info");
       core ← info_part (SUPERVISOR_API +:+ "/core/info");
       supervisor ← info_part (SUPERVISOR_API +:+ "/supervisor/info");
       ret (json_response
              [ ("success", JBool true);
                ("info", JDict [("host", host); ("core", core); ("supervisor", supervisor)]) ]
              200))
      (λ e, log ERROR ("System info error: " +:+ exn_str e);;
            ret (error_response e)).

Definition handle_health (request : request) : M response :=
  ret (json_response [ ("status", JStr "healthy");
                       ("addon", JStr "controll-supervisor");
                       ("version", JStr "1.0.0");
                       ("timestamp", JStr utcnow) ] 200).

(** The handler [main] registers for a route. *)
Definition handler (r : route) (request : request) (query : gmap string string)
  : M response :=
  match r with
  | Health => handle_health request
  | FileWrite => handle_file_write OPTIONS request
  | FileRead => handle_file_read request query
  | FileList => handle_file_list request query
  | HaService => handle_ha_service request (request_body request)
  | HaRestart => handle_ha_restart request
  | HaConfig => handle_ha_config request
  | HaStates => handle_ha_states request
  | AddonList => handle_addon_list request
  | AddonInstall => handle_addon_install request
  | SystemInfo => handle_system_info request
  | Discovery => handle_discovery OPTIONS SUPERVISOR_TOKEN net scan_hosts request
  | ThemeInstall => handle_install_theme OPTIONS request
  | Branding => handle_set_branding OPTIONS yaml_installed request
  end.

End Routes.

(** ** What the properties below are stated with *)

(** A computation that leaves the files as they are, and one that never
    raises. *)
Definition keeps_files {A} (m : M A) : Prop := ∀ w, w_fs (m w).2 = w_fs w.
Definition answers {A} (m : M A) : Prop := ∀ w, ∃ a, (m w).1 = Ok a.

(** The sleeps among some events, in order. *)
Definition sleeps (evs : list event) : list Z :=
  omap (λ e, match e with EvSleep s => Some s | _ => None end) evs.

(** Whether an event is an HTTP request. *)
Definition is_http (e : event) : bool :=
  match e with EvHttp _ _ _ _ => true | _ => false end.

(** The ends of a text, longest first. *)
Fixpoint suffixes (s : string) : list string :=
  s :: match s with
       | "" => []
       | String _ s' => suffixes s'
       end.

(** An insertion after [old] cannot fall inside [m]: [old] occurs in [m] at
    its end only, and an end of [old] that begins [m] is all of [m]. *)
Definition keeps_marker (old m : string) : bool :=
  forallb (λ v, implb (Py.startswith v old) (String.eqb v old)) (suffixes m)
  && forallb (λ b, implb (negb (String.eqb b "") && Py.startswith m b) (String.eqb b m))
       (match old with "" => [] | String _ t => suffixes t end).

(** The three texts whose presence makes start-up skip the naming step. *)
Definition name_markers : list string :=
  [ "name: Controll"; "name: " +:+ Py.dq +:+ "Controll" +:+ Py.dq; "homeassistant:" ].

(** A text without a line end in it. *)
Definition one_line (m : string) : bool :=
  forallb (λ c, negb (Ascii.eqb c "013") && negb (Ascii.eqb c "010")) (Py.chars m).

(** A file write request carrying the token [tok]. *)
Definition write_request (path content : string) : request :=
  Request [("Authorization", "Bearer tok")]
          (Ok (<["path" := path]> (<["content" := content]> ∅))).

(** A request with the token [tok] and an empty body. *)
Definition plain_request : request :=
  Request [("Authorization", "Bearer tok")] (Ok ∅).




Section Bodies.

Variable SUPERVISOR_TOKEN : string.
Variable net : http_env.
Variable more : http_more.
Variable yaml_installed : bool.
Variable scan_hosts : world → (list json * option exn) * world.












End Bodies.




(** * Facts about the string primitives *)

Section PyFacts.

Implicit Types s p sub old new r : string.

Lemma app_String a s r : String a s +:+ r = String a (s +:+ r).
Proof. reflexivity. Qed.

Lemma app_empty_l s : "" +:+ s = s.
Proof. reflexivity. Qed.

Lemma app_empty_r s : s +:+ "" = s.
Proof. induction s as [|a s IH]; [done|]. by rewrite app_String, IH. Qed.

Lemma app_assoc_str s p r : (s +:+ p) +:+ r = s +:+ (p +:+ r).
Proof. induction s as [|a s IH]; [done|]. by rewrite !app_String, IH. Qed.

Lemma chars_app s r : Py.chars (s +:+ r) = Py.chars s ++ Py.chars r.
Proof.
  induction s as [|a s IH]; [done|].
  rewrite app_String. unfold Py.chars in *. simpl. by rewrite IH.
Qed.

Lemma startswith_empty s : Py.startswith s "" = true.
Proof. by destruct s. Qed.

Lemma startswith_app p r : Py.startswith (p +:+ r) p = true.
Proof.
  induction p as [|a p IH]; [apply startswith_empty|].
  rewrite app_String. simpl. by rewrite Ascii.eqb_refl.
Qed.

(** A string that starts with [p] is [p] followed by its slice. *)
Lemma startswith_split s p :
  Py.startswith s p = true → s = p +:+ Py.slice_from (String.length p) s.
Proof.
  revert s. induction p as [|b p IH]; intros s H; [done|].
  destruct s as [|a s]; [done|]. simpl in H.
  destruct (Ascii.eqb a b) eqn:Hab; [|done].
  apply Ascii.eqb_eq in Hab as ->.
  rewrite app_String. simpl. f_equal. by apply IH.
Qed.

Lemma startswith_iff s p : Py.startswith s p = true ↔ ∃ r, s = p +:+ r.
Proof.
  split.
  - intros H. eexists. by apply startswith_split.
  - intros [r ->]. apply startswith_app.
Qed.

Lemma slice_from_app p r : Py.slice_from (String.length p) (p +:+ r) = r.
Proof. induction p as [|a p IH]; [by destruct r|]. by rewrite app_String. Qed.

Lemma contains_startswith sub s : Py.startswith s sub = true → Py.contains sub s = true.
Proof. intros H. destruct s; simpl in *; by rewrite H. Qed.

Lemma contains_cons sub a s : Py.contains sub s = true → Py.contains sub (String a s) = true.
Proof. intros H. simpl. rewrite H. apply orb_true_r. Qed.

Lemma contains_app_r sub p s : Py.contains sub s = true → Py.contains sub (p +:+ s) = true.
Proof.
  intros H. induction p as [|a p IH]; [done|].
  rewrite app_String. by apply contains_cons.
Qed.

(** [sub in s] holds exactly when [s] is some text, [sub], some text. *)
Lemma contains_iff sub s : Py.contains sub s = true ↔ ∃ p r, s = p +:+ sub +:+ r.
Proof.
  split.
  - induction s as [|a s IH]; cbn [Py.contains].
    + rewrite orb_false_r. intros [r ->]%startswith_iff. by exists "", r.
    + intros [H|H]%orb_true_iff.
      * apply startswith_iff in H as [r ->]. by exists "", r.
      * destruct (IH H) as (p & r & ->). by exists (String a p), r.
  - intros (p & r & ->). apply contains_app_r, contains_startswith, startswith_app.
Qed.

Lemma contains_app_l sub s r : Py.contains sub s = true → Py.contains sub (s +:+ r) = true.
Proof.
  rewrite !contains_iff. intros (p & q & ->). exists p, (q +:+ r).
  by rewrite !app_assoc_str.
Qed.

Lemma contains_self_app s r : Py.contains s (s +:+ r) = true.
Proof. apply contains_startswith, startswith_app. Qed.

(** Skipping [k] characters and then replacing is replacing in the slice. *)
Lemma replace_from_skip old new k s :
  Py.replace_from old new k s = Py.replace_from old new 0 (Py.slice_from k s).
Proof.
  revert k. induction s as [|a s IH]; intros [|k]; try done.
  simpl. apply IH.
Qed.

Lemma replace_from_hit old new a s :
  Py.startswith (String a s) old = true →
  Py.replace_from old new 0 (String a s)
  = new +:+ Py.replace_from old new 0 (Py.slice_from (String.length old - 1) s).
Proof. intros H. simpl in *. rewrite H. by rewrite replace_from_skip. Qed.

Lemma replace_from_miss old new a s :
  Py.startswith (String a s) old = false →
  Py.replace_from old new 0 (String a s) = String a (Py.replace_from old new 0 s).
Proof. intros H. simpl in *. by rewrite H. Qed.

(** Where [old] occurs, the result has [new]. *)
Lemma replace_from_has_new old new s :
  old ≠ "" → Py.contains old s = true →
  ∃ p r, Py.replace_from old new 0 s = p +:+ new +:+ r.
Proof.
  intros Hold. induction s as [|a s IH]; intros H.
  - destruct old; [done|]. done.
  - destruct (Py.startswith (String a s) old) eqn:Hs.
    + rewrite replace_from_hit by done. by exists "", (Py.replace_from old new 0 (Py.slice_from (String.length old - 1) s)).
    + rewrite replace_from_miss by done.
      simpl in H. simpl in Hs. rewrite Hs in H. simpl in H.
      destruct (IH H) as (p & r & ->). by exists (String a p), r.
Qed.

Lemma replace_contains s old new sub :
  old ≠ "" → Py.contains old s = true → Py.contains sub new = true →
  Py.contains sub (Py.replace s old new) = true.
Proof.
  intros Hold Hs Hsub. destruct old as [|b old]; [done|]. unfold Py.replace.
  destruct (replace_from_has_new (String b old) new s Hold Hs) as (p & r & ->).
  by apply contains_app_r, contains_app_l.
Qed.

Lemma slice_from_length k s : String.length (Py.slice_from k s) ≤ String.length s.
Proof.
  revert k. induction s as [|a s IH]; intros [|k]; simpl; try lia.
  specialize (IH k). lia.
Qed.

(** Replacing [old] by [old] followed by more text keeps every character of
    the input, in order. *)
Lemma replace_from_sublist old extra s :
  old ≠ "" →
  Py.chars s `sublist_of` Py.chars (Py.replace_from old (old +:+ extra) 0 s).
Proof.
  intros Hold. remember (String.length s) as n eqn:Hn. revert s Hn.
  induction n as [n IH] using lt_wf_ind. intros s ->.
  destruct s as [|a s]; [done|].
  destruct (Py.startswith (String a s) old) eqn:Hs.
  - rewrite replace_from_hit by done.
    pose proof (startswith_split _ _ Hs) as Heq.
    destruct old as [|b old]; [done|].
    cbn [String.length Py.slice_from] in Heq. cbn [String.length].
    replace (S (String.length old) - 1) with (String.length old) by lia.
    rewrite Heq at 1. rewrite !chars_app. apply sublist_app.
    + by apply sublist_inserts_r.
    + eapply IH; [|done]. pose proof (slice_from_length (String.length old) s).
      simpl. lia.
  - rewrite replace_from_miss by done. unfold Py.chars. simpl.
    apply sublist_skip. eapply (IH (String.length s)); [simpl; lia|done].
Qed.

Lemma replace_sublist s old extra :
  old ≠ "" → Py.chars s `sublist_of` Py.chars (Py.replace s old (old +:+ extra)).
Proof.
  intros Hold. destruct old as [|b old]; [done|]. by apply replace_from_sublist.
Qed.

End PyFacts.

(** * Newline translation *)

Section Newlines.

Implicit Types s m r : string.

(** Text without carriage returns is handed over as it is. *)
Lemma universal_newlines_plain s :
  Py.contains (String "013" "") s = false → universal_newlines s = s.
Proof.
  induction s as [|c s IH]; [done|].
  cbn [Py.contains Py.startswith universal_newlines].
  rewrite startswith_empty.
  destruct (Ascii.eqb c "013"); [done|]. cbn [orb]. intros H. by rewrite IH.
Qed.

Lemma contains_cons_eq m c s :
  Py.contains m (String c s) = Py.startswith (String c s) m || Py.contains m s.
Proof. reflexivity. Qed.

Lemma contains_in_empty m : m ≠ "" → Py.contains m "" = false.
Proof. by destruct m. Qed.

Lemma contains_char_cons a c s :
  Py.contains (String a "") (String c s) = Ascii.eqb c a || Py.contains (String a "") s.
Proof.
  rewrite contains_cons_eq. cbn [Py.startswith].
  destruct (Ascii.eqb c a); by rewrite ?startswith_empty.
Qed.

Lemma contains_char_app a s r :
  Py.contains (String a "") (s +:+ r)
  = Py.contains (String a "") s || Py.contains (String a "") r.
Proof.
  induction s as [|c s IH]; [done|].
  by rewrite app_String, !contains_char_cons, IH, orb_assoc.
Qed.

(** What is handed over has no carriage return. *)
Lemma universal_newlines_no_cr s :
  Py.contains (String "013" "") (universal_newlines s) = false.
Proof.
  remember (String.length s) as n eqn:Hn. revert s Hn.
  induction n as [n IH] using lt_wf_ind. intros s ->.
  destruct s as [|c s]; [done|]. cbn [universal_newlines].
  destruct (Ascii.eqb c "013") eqn:Hc.
  - destruct s as [|d s]; [done|].
    destruct (Ascii.eqb d "010"); rewrite contains_char_cons; cbn [orb Ascii.eqb].
    + eapply (IH (String.length s)); [simpl; lia|done].
    + eapply (IH (String.length (String d s))); [simpl; lia|done].
  - rewrite contains_char_cons, Hc. eapply (IH (String.length s)); [simpl; lia|done].
Qed.

Lemma one_line_cons b m :
  one_line (String b m) = true →
  Ascii.eqb b "013" = false ∧ Ascii.eqb b "010" = false ∧ one_line m = true.
Proof.
  unfold one_line, Py.chars. cbn [String.list_ascii_of_string forallb].
  intros [[H1 H2]%andb_true_iff H3]%andb_true_iff.
  by apply negb_true_iff in H1, H2.
Qed.

Lemma eqb_via a b c : Ascii.eqb a c = true → Ascii.eqb b c = false → Ascii.eqb a b = false.
Proof.
  intros ->%Ascii.eqb_eq H. apply Ascii.eqb_neq. intros ->.
  by rewrite Ascii.eqb_refl in H.
Qed.

(** A text without line ends begins what is handed over exactly when it
    begins what is stored. *)
Lemma startswith_universal m s :
  one_line m = true → Py.startswith (universal_newlines s) m = Py.startswith s m.
Proof.
  revert s. induction m as [|b m IH]; intros s Hm; [by rewrite !startswith_empty|].
  apply one_line_cons in Hm as (Hcr & Hlf & Hm).
  destruct s as [|c s]; [done|]. cbn [universal_newlines].
  destruct (Ascii.eqb c "013") eqn:Hc.
  - assert (Ascii.eqb c b = false) as Hcb.
    { apply Ascii.eqb_neq. intros ->. congruence. }
    assert (Ascii.eqb "010" b = false) as Hlb.
    { apply Ascii.eqb_neq. intros <-. done. }
    cbn [Py.startswith]. rewrite Hcb.
    destruct s as [|d s]; [by cbn [Py.startswith]; rewrite Hlb|].
    destruct (Ascii.eqb d "010"); cbn [Py.startswith]; by rewrite Hlb.
  - cbn [Py.startswith]. destruct (Ascii.eqb c b); [by apply IH|done].
Qed.

(** And it occurs in the one exactly when it occurs in the other. *)
Lemma contains_universal m s :
  one_line m = true → m ≠ "" →
  Py.contains m (universal_newlines s) = Py.contains m s.
Proof.
  intros Hm Hne. remember (String.length s) as n eqn:Hn. revert s Hn.
  induction n as [n IH] using lt_wf_ind. intros s ->.
  destruct s as [|c s]; [done|].
  rewrite (contains_cons_eq m c s), <- (startswith_universal m (String c s) Hm).
  destruct m as [|b m]; [done|].
  pose proof (one_line_cons _ _ Hm) as (Hcr & Hlf & _).
  assert (Ascii.eqb "010" b = false) as Hlb.
  { apply Ascii.eqb_neq. intros <-. done. }
  cbn [universal_newlines].
  destruct (Ascii.eqb c "013") eqn:Hc.
  - destruct s as [|d s].
    + rewrite contains_cons_eq. by rewrite (contains_in_empty (String b m)).
    + destruct (Ascii.eqb d "010") eqn:Hd.
      * rewrite (contains_cons_eq _ "010"). f_equal.
        rewrite (contains_cons_eq _ d s).
        replace (Py.startswith (String d s) (String b m)) with false.
        2: { cbn [Py.startswith].
             apply Ascii.eqb_eq in Hd as ->. by rewrite Hlb. }
        cbn [orb]. eapply (IH (String.length s)); [simpl; lia|done].
      * rewrite (contains_cons_eq _ "010"). f_equal.
        eapply (IH (String.length (String d s))); [simpl; lia|done].
  - rewrite (contains_cons_eq _ c). f_equal.
    eapply (IH (String.length s)); [simpl; lia|done].
Qed.

(** Replacing keeps a text free of a character the new text is free of. *)
Lemma replace_from_no_char a old new k s :
  Py.contains (String a "") s = false → Py.contains (String a "") new = false →
  Py.contains (String a "") (Py.replace_from old new k s) = false.
Proof.
  intros Hs Hnew. revert k Hs. induction s as [|c s IH]; intros k Hs; [by destruct k|].
  rewrite contains_char_cons in Hs. apply orb_false_iff in Hs as [Hc Hs].
  destruct k as [|k]; cbn [Py.replace_from]; [|by apply IH].
  destruct (Py.startswith (String c s) old).
  - rewrite contains_char_app, Hnew. by apply IH.
  - rewrite contains_char_cons, Hc. by apply IH.
Qed.

End Newlines.

(** * The reconciliation steps on the text *)

Section Steps.

Implicit Types doc : string.

Lemma themes_line_marker : Py.contains "themes:" THEMES_LINE = true.
Proof. reflexivity. Qed.

Lemma frontend_with_themes_marker : Py.contains "themes:" frontend_with_themes = true.
Proof. reflexivity. Qed.

(** After the step the marker is there, whichever branch ran. *)
Lemma add_themes_config_marker doc :
  Py.contains "themes:" (add_themes_config doc).1 = true.
Proof.
  unfold add_themes_config.
  destruct (Py.contains "themes:" doc) eqn:Hm; [done|].
  destruct (Py.contains "frontend:" doc) eqn:Hf; cbn [negb fst].
  - by apply replace_contains.
  - by apply contains_app_r.
Qed.

Lemma add_themes_config_done doc :
  Py.contains "themes:" doc = true → add_themes_config doc = (doc, false).
Proof. intros H. unfold add_themes_config. by rewrite H. Qed.

(** What the start-up step does, branch by branch. *)
Lemma add_themes_config_cases doc :
  Py.contains "themes:" doc = false →
  (Py.contains "frontend:" doc = true →
     add_themes_config doc = (Py.replace doc "frontend:" frontend_with_themes, true))
  ∧ (Py.contains "frontend:" doc = false →
     add_themes_config doc = (doc +:+ startup_frontend_block, true)).
Proof. intros H. unfold add_themes_config. rewrite H. by split; intros ->. Qed.

Lemma add_themes_config_sublist doc :
  Py.chars doc `sublist_of` Py.chars (add_themes_config doc).1.
Proof.
  unfold add_themes_config.
  destruct (Py.contains "themes:" doc); [done|].
  destruct (Py.contains "frontend:" doc); cbn [negb fst].
  - by apply (replace_sublist doc "frontend:" (Py.nl +:+ THEMES_LINE)).
  - rewrite chars_app. by apply sublist_inserts_r.
Qed.


Lemma add_controll_name_cases doc :
  add_controll_name doc = (doc, false)
  ∨ add_controll_name doc = (doc +:+ startup_name_block, true).
Proof. unfold add_controll_name. repeat case_match; auto. Qed.

Lemma add_themes_config_flag doc :
  (add_themes_config doc).2 = negb (Py.contains "themes:" doc).
Proof. unfold add_themes_config. by repeat case_match. Qed.

Lemma add_themes_config_unflagged doc :
  (add_themes_config doc).2 = false → (add_themes_config doc).1 = doc.
Proof. unfold add_themes_config. by repeat case_match. Qed.

(** The naming step decides the same on the text as read and on the text
    as stored, and so does the whole of start-up. *)
Lemma add_controll_name_universal doc :
  (add_controll_name (universal_newlines doc)).2 = (add_controll_name doc).2.
Proof.
  unfold add_controll_name.
  rewrite !contains_universal by done. by repeat case_match.
Qed.

Lemma reconcile_flag_universal doc :
  (reconcile (universal_newlines doc)).2 = (reconcile doc).2.
Proof.
  unfold reconcile.
  pose proof (add_controll_name_universal doc) as Hn.
  destruct (add_controll_name_cases (universal_newlines doc)) as [H1|H1],
           (add_controll_name_cases doc) as [H2|H2];
    rewrite H1, H2 in *; cbn [snd] in Hn; try done.
  - pose proof (add_themes_config_flag (universal_newlines doc)) as F1.
    pose proof (add_themes_config_flag doc) as F2.
    destruct (add_themes_config (universal_newlines doc)) as [t1 f1],
             (add_themes_config doc) as [t2 f2]. cbn [snd orb] in *.
    by rewrite F1, F2, contains_universal.
  - pose proof (add_themes_config_flag (universal_newlines doc +:+ startup_name_block)) as F1.
    pose proof (add_themes_config_flag (doc +:+ startup_name_block)) as F2.
    destruct (add_themes_config (universal_newlines doc +:+ startup_name_block)) as [t1 f1],
             (add_themes_config (doc +:+ startup_name_block)) as [t2 f2].
    cbn [snd orb] in *. done.
Qed.

Lemma reconcile_no_cr doc :
  Py.contains (String "013" "") doc = false →
  Py.contains (String "013" "") (reconcile doc).1 = false.
Proof.
  intros Hd. unfold reconcile.
  assert (∀ t, Py.contains (String "013" "") t = false →
               Py.contains (String "013" "") (add_themes_config t).1 = false) as Ht.
  { intros t Hc. unfold add_themes_config. repeat case_match; cbn [fst]; try done.
    - by rewrite contains_char_app, Hc.
    - by apply replace_from_no_char. }
  destruct (add_controll_name_cases doc) as [->| ->].
  - specialize (Ht doc Hd). by destruct (add_themes_config doc).
  - specialize (Ht (doc +:+ startup_name_block)).
    rewrite contains_char_app, Hd in Ht. specialize (Ht eq_refl).
    by destruct (add_themes_config (doc +:+ startup_name_block)).
Qed.

End Steps.

(** * The configuration file in the file system *)

Section ConfigFile.

Implicit Types f : fs.

Lemma config_file_eq : config_file = ["config"; "configuration.yaml"].
Proof. reflexivity. Qed.

Lemma themes_dir_eq : themes_dir = ["config"; "themes"].
Proof. reflexivity. Qed.

Lemma locate_config_file f :
  Fs.locate f config_file =
  match f !! ["config"] with
  | Some Dir => inr config_file
  | Some (File _) => inl ENOTDIR
  | None => inl ENOENT
  end.
Proof.
  rewrite config_file_eq. unfold Fs.locate.
  cbn [removelast List.last Fs.walk app].
  rewrite !decide_False by done. cbn [app].
  by destruct (f !! ["config"]) as [[]|].
Qed.

(** The document depends on two entries only. *)
Lemma doc_of_ext f f' :
  f !! ["config"] = f' !! ["config"] →
  f !! config_file = f' !! config_file →
  doc_of f = doc_of f'.
Proof.
  intros H1 H2. unfold doc_of, Fs.read_text, Fs.stat.
  rewrite !locate_config_file, <- H1.
  destruct (f !! ["config"]) as [[]|]; try done.
  rewrite config_file_eq in *. cbn [Fs.node_at]. by rewrite H2.
Qed.

Lemma read_config_world w : (read_config w).2 = w.
Proof.
  unfold read_config, read_text_universal, mbind, M_bind, bind, path_exists, fs_query,
    read_text, ret.
  destruct (Fs.exists_ (w_fs w) config_file); [|done]. cbn [w_fs].
  by destruct (Fs.read_text (w_fs w) config_file).
Qed.

(** When the read succeeds it gives the document with its line ends
    translated. *)
Lemma read_config_ok w doc :
  (read_config w).1 = Ok doc → doc = universal_newlines (doc_of (w_fs w)).
Proof.
  unfold read_config, read_text_universal, mbind, M_bind, bind, path_exists, fs_query,
    read_text, ret, doc_of.
  unfold Fs.exists_, Fs.read_text. generalize config_file as p. intros p.
  destruct (Fs.stat (w_fs w) p) as [e|[|c]] eqn:Hs; cbn [fst w_fs]; rewrite ?Hs;
    cbn [fst universal_newlines]; congruence.
Qed.

Lemma append_config f text f' :
  Fs.append_text f config_file text = Ok f' → doc_of f' = doc_of f +:+ text.
Proof.
  unfold Fs.append_text, Fs.open_write, doc_of, Fs.read_text, Fs.stat.
  rewrite !locate_config_file.
  destruct (f !! ["config"]) as [[]|] eqn:Hc; try done.
  assert (∀ n, <[config_file := n]> f !! ["config"] = Some Dir) as Hc'.
  { intros n. by rewrite lookup_insert_ne. }
  rewrite config_file_eq in *. cbn [Fs.node_at].
  destruct (f !! ["config"; "configuration.yaml"]) as [[|old]|] eqn:Hn;
    intros [= <-]; rewrite Hc'; cbn [Fs.node_at]; rewrite lookup_insert_eq; done.
Qed.

Lemma write_config f text f' :
  Fs.write_text f config_file text = Ok f' → doc_of f' = text.
Proof.
  unfold Fs.write_text, Fs.open_write, doc_of, Fs.read_text, Fs.stat.
  rewrite !locate_config_file.
  destruct (f !! ["config"]) as [[]|] eqn:Hc; try done.
  assert (∀ n, <[config_file := n]> f !! ["config"] = Some Dir) as Hc'.
  { intros n. by rewrite lookup_insert_ne. }
  rewrite config_file_eq in *. cbn [Fs.node_at].
  destruct (f !! ["config"; "configuration.yaml"]) as [[|old]|] eqn:Hn;
    intros [= <-]; rewrite Hc'; cbn [Fs.node_at]; rewrite lookup_insert_eq; done.
Qed.

End ConfigFile.

(** * The request-path steps in the file system *)

Ltac run := unfold mbind, M_bind, bind, ret, when, log, emit, of_result, raise,
                   append_text, write_text, mkdir, fs_update.

Section RequestSteps.

Lemma read_config_eq w :
  ∃ r, read_config w = (r, w)
       ∧ ∀ doc, r = Ok doc → doc = universal_newlines (doc_of (w_fs w)).
Proof.
  exists (read_config w).1. split.
  - rewrite <- (read_config_world w) at 3. by destruct (read_config w).
  - apply read_config_ok.
Qed.

(** The theme step of a request leaves the files alone or appends its block
    to a document without the marker. *)
Lemma add_theme_configuration_cases w :
  let w' := (add_theme_configuration w).2 in
  w_fs w' = w_fs w
  ∨ (Py.contains "themes:" (doc_of (w_fs w)) = false
     ∧ doc_of (w_fs w') = doc_of (w_fs w) +:+ request_frontend_block).
Proof.
  unfold add_theme_configuration. run.
  destruct (read_config_eq w) as (r & -> & Hr).
  destruct r as [doc|e]; [|by left].
  rewrite (Hr doc eq_refl), (contains_universal "themes:") by done.
  destruct (Py.contains "themes:" (doc_of (w_fs w))) eqn:Hm; [by left|].
  cbn [negb].
  destruct (Fs.append_text (w_fs w) config_file request_frontend_block) as [f'|e] eqn:Ha;
    [|by left].
  right. split; [done|]. cbn [snd w_fs]. by apply append_config.
Qed.

Lemma add_theme_configuration_done w :
  Py.contains "themes:" (doc_of (w_fs w)) = true →
  w_fs (add_theme_configuration w).2 = w_fs w.
Proof.
  intros Hm. destruct (add_theme_configuration_cases w) as [H|[H _]]; [done|congruence].
Qed.

(** What the step does to the files depends on the files only. *)
Lemma add_theme_configuration_fs w1 w2 :
  w_fs w1 = w_fs w2 →
  w_fs (add_theme_configuration w1).2 = w_fs (add_theme_configuration w2).2.
Proof.
  destruct w1 as [f t1], w2 as [f2 t2]. cbn [w_fs]. intros <-.
  unfold add_theme_configuration, read_config, read_text_universal, path_exists, fs_query,
    read_text. run.
  cbn [w_fs]. destruct (Fs.exists_ f config_file).
  - cbn [w_fs]. destruct (Fs.read_text f config_file) as [doc|e]. 2: done.
    destruct (Py.contains "themes:" (universal_newlines doc)); [done|]. cbn [negb w_fs].
    by destruct (Fs.append_text f config_file request_frontend_block).
  - destruct (Py.contains "themes:" ""); [done|]. cbn [negb w_fs].
    by destruct (Fs.append_text f config_file request_frontend_block).
Qed.


End RequestSteps.

(** * The auth gate *)

Section AuthGate.

Variable OPTIONS : options.

Lemma verify_token_iff (rq : request) :
  verify_token OPTIONS rq = true
  ↔ headers_get (req_headers rq) "Authorization" "" = "Bearer " +:+ HUB_TOKEN OPTIONS.
Proof.
  unfold verify_token.
  destruct (Py.startswith (headers_get (req_headers rq) "Authorization" "") "Bearer ")
    eqn:Hs; cbn [negb].
  - apply startswith_split in Hs. cbn [String.length] in Hs.
    rewrite String.eqb_eq. split.
    + intros <-. done.
    + intros H. rewrite H. apply (slice_from_app "Bearer ").
  - split; [done|]. intros H. rewrite H in Hs.
    by rewrite (startswith_app "Bearer ") in Hs.
Qed.

End AuthGate.

(** C5: with the expected token [secret] the gate refuses a request without
    header fields, one whose Authorization field is [secret] without the
    scheme, and one with [Bearer wrong]; it accepts a request exactly when
    its Authorization field is [Bearer secret]. *)
Theorem verify_token_secret (o : options) (b : result (gmap string string)) :
  opt_hub_token o = Some "secret" →
  verify_token o (Request [] b) = false
  ∧ verify_token o (Request [("Authorization", "secret")] b) = false
  ∧ verify_token o (Request [("Authorization", "Bearer wrong")] b) = false
  ∧ verify_token o (Request [("Authorization", "Bearer secret")] b) = true
  ∧ ∀ rq, verify_token o rq = true
          ↔ headers_get (req_headers rq) "Authorization" "" = "Bearer secret".
Proof.
  intros Ho.
  assert (HUB_TOKEN o = "secret") as Ht by (unfold HUB_TOKEN; by rewrite Ho).
  repeat split; try (unfold verify_token; rewrite Ht; reflexivity).
  - intros H%verify_token_iff. by rewrite Ht in H.
  - intros H. apply verify_token_iff. by rewrite Ht.
Qed.

Lemma verify_token_secret_witness :
  let o := Options (Some "secret") None None in
  opt_hub_token o = Some "secret"
  ∧ verify_token o (Request [] (Ok ∅)) = false
  ∧ verify_token o (Request [("Authorization", "secret")] (Ok ∅)) = false
  ∧ verify_token o (Request [("Authorization", "Bearer wrong")] (Ok ∅)) = false
  ∧ verify_token o (Request [("Authorization", "Bearer secret")] (Ok ∅)) = true.
Proof.
  intros o. split; [reflexivity|].
  pose proof (verify_token_secret o (Ok ∅) eq_refl) as (H1 & H2 & H3 & H4 & _).
  by repeat split.
Defined.

(** * Handlers behind the gate *)

Section Handlers.

Context {A B : Type}.

Lemma bind_Ok_inv (m : M A) (k : A → M B) w b w' :
  (m ≫= k) w = (Ok b, w') → ∃ a w1, m w = (Ok a, w1) ∧ k a w1 = (Ok b, w').
Proof.
  unfold mbind, M_bind, bind. destruct (m w) as [[a|e] w1]; [|done]. eauto.
Qed.

Lemma try_except_inv (m : M A) (h : exn → M A) w r w' :
  try_except m h w = (r, w') →
  m w = (r, w') ∧ (∃ a, r = Ok a) ∨ ∃ e w1, m w = (Raise e, w1) ∧ h e w1 = (r, w').
Proof.
  unfold try_except. destruct (m w) as [[a|e] w1].
  - intros [= <- <-]. left. eauto.
  - right. eauto.
Qed.

End Handlers.

(** Peel the binds of a computation known to return. *)
Ltac peel H :=
  repeat first
    [ apply bind_Ok_inv in H as (? & ? & _ & H)
    | match type of H with (if ?c then _ else _) _ = _ => destruct c end
    | match type of H with (let '(_, _) := ?c in _) _ = _ => destruct c end ].

(** C9: when the expected token is empty, which is what an options file
    without [hub_token] gives, the gate accepts every request whose
    Authorization header is [Bearer ] with nothing after the scheme.  Every
    registered handler then does for such a request exactly what it does
    for a request with the same body that carries the token of an
    installation that has one; and no route but the add-on installation,
    which passes on the status of the Supervisor, answers it with status
    401. *)
Theorem empty_token_accepts_empty_bearer
    (o : options) (sup : string) (net : http_env) (more : http_more) (yaml : bool)
    (scan : world → (list json * option exn) * world) (now : string) (rq : request) :
  HUB_TOKEN o = "" →
  headers_get (req_headers rq) "Authorization" "" = "Bearer " →
  (∀ o', opt_hub_token o' = None → HUB_TOKEN o' = "")
  ∧ verify_token o rq = true
  ∧ (∀ r o2 rq2 query w,
       verify_token o2 rq2 = true → req_json rq2 = req_json rq →
       handler o sup net more yaml scan now r rq query w
       = handler o2 sup net more yaml scan now r rq2 query w)
  ∧ (∃ o2 rq2, HUB_TOKEN o2 ≠ "" ∧ verify_token o2 rq2 = true
               ∧ req_json rq2 = req_json rq)
  ∧ (∀ r query w resp,
       r ≠ AddonInstall →
       (handler o sup net more yaml scan now r rq query w).1 = Ok resp →
       status resp ≠ 401).
Proof.
  intros Ht Hh.
  assert (verify_token o rq = true) as Hv.
  { unfold verify_token. by rewrite Hh, Ht. }
  split; [by intros o' Ho; unfold HUB_TOKEN; rewrite Ho|]. split; [done|].
  split; [|split].
  - intros r o2 rq2 query w Hv2 Hj.
    destruct r; cbn [handler];
      unfold handle_health, handle_file_write, handle_file_read, handle_file_list,
        handle_ha_service, handle_ha_restart, handle_ha_config, handle_ha_states,
        handle_addon_list, handle_addon_install, handle_system_info, handle_discovery,
        handle_install_theme, handle_set_branding, request_body;
      by rewrite ?Hv, ?Hv2, ?Hj.
  - by exists (Options (Some "tok") None None),
              (Request [("Authorization", "Bearer tok")] (req_json rq)).
  - intros r query w resp Hr.
    destruct r; try done; cbn [handler];
      unfold handle_health, handle_file_write, handle_file_read, handle_file_list,
        handle_ha_service, handle_ha_restart, handle_ha_config, handle_ha_states,
        handle_addon_list, handle_system_info, handle_discovery,
        handle_install_theme, handle_set_branding;
      rewrite ?Hv; cbn [negb].
    1: by intros [= <-].
    all: match goal with |- (?m ?w0).1 = _ → _ => destruct (m w0) as [r0 w'] eqn:H end.
    all: cbn [fst]; intros ->.
    all: apply try_except_inv in H as [[H _]|(e & w1 & _ & H)].
    all: try (unfold error_response in H; peel H; by inversion H).
    all: peel H; by inversion H.
Qed.

Lemma empty_token_accepts_empty_bearer_witness :
  let o := Options (Some "") None None in
  let rq := Request [("Accept", "*/*"); ("authorization", "Bearer ")]
              (Ok {[ "path" := "automations.yaml"; "content" := "[]" ]}) in
  let w := World {[ ["config"] := Dir ]} [] in
  HUB_TOKEN o = ""
  ∧ headers_get (req_headers rq) "Authorization" "" = "Bearer "
  ∧ verify_token o rq = true
  ∧ handle_file_write o rq w
    = handle_file_write (Options (Some "tok") None None)
        (write_request "automations.yaml" "[]") w.
Proof.
  intros o rq w.
  assert (HUB_TOKEN o = "") as Ht by reflexivity.
  assert (headers_get (req_headers rq) "Authorization" "" = "Bearer ") as Hh by reflexivity.
  pose proof (empty_token_accepts_empty_bearer o ""
                (HttpEnv (λ _, Ok JNull) (λ _ _, Ok 200))
                (HttpMore (λ _ _, Ok JNull) (λ _, Ok (200, Ok "")))
                true (λ w, (([], None), w)) "" rq Ht Hh) as (_ & Hv & Heq & _ & _).
  split; [exact Ht|]. split; [exact Hh|]. split; [exact Hv|].
  exact (Heq FileWrite (Options (Some "tok") None None)
           (write_request "automations.yaml" "[]") ∅ w eq_refl eq_refl).
Defined.

(** * The device identity *)

Section DeviceId.

(** The first field of a split at [_] is the text before the first [_]. *)
Lemma split_first_underscore (s : string) :
  Py.contains "_" s = true →
  ∃ d rest, s = d +:+ "_" +:+ rest
            ∧ Py.contains "_" d = false
            ∧ (Py.split_from "_" 0 s).1 = d.
Proof.
  induction s as [|a s IH]; [done|].
  cbn [Py.contains Py.split_from Py.startswith String.length Nat.sub].
  rewrite !startswith_empty.
  destruct (Ascii.eqb a "_") eqn:Ha.
  - intros _. apply Ascii.eqb_eq in Ha as ->. exists "", s.
    split; [done|]. split; [done|]. by destruct (Py.split_from "_" 0 s).
  - cbn [orb]. intros H.
    destruct (IH H) as (d & rest & -> & Hd & Hf).
    exists (String a d), rest. split; [done|]. split.
    + cbn [Py.contains Py.startswith]. by rewrite Ha, Hd.
    + destruct (Py.split_from "_" 0 (d +:+ "_" +:+ rest)). cbn in *. by subst.
Qed.

Lemma split_head (s sep : string) : Py.split s sep !! 0 = Some (Py.split_from sep 0 s).1.
Proof. unfold Py.split. by destruct (Py.split_from sep 0 s). Qed.

End DeviceId.

(** C6: the device identity is the text of the hub credential before its
    first [_], and [unknown] when the credential has no [_]. *)
Theorem device_id_spec (o : options) :
  (Py.contains "_" (HUB_TOKEN o) = true →
     ∃ d rest, HUB_TOKEN o = d +:+ "_" +:+ rest
               ∧ Py.contains "_" d = false
               ∧ device_id o = Ok d)
  ∧ (Py.contains "_" (HUB_TOKEN o) = false → device_id o = Ok "unknown")
  ∧ (HUB_TOKEN o = "abc123_devkey" → device_id o = Ok "abc123")
  ∧ (HUB_TOKEN o = "nodash" → device_id o = Ok "unknown")
  ∧ (∀ info, ∃ d fields,
       device_id o = Ok d
       ∧ heartbeat_payload o info = Ok (JDict (("device_id", JStr d) :: fields))).
Proof.
  unfold heartbeat_payload, device_id. repeat split.
  - intros H. rewrite H, split_head.
    destruct (split_first_underscore _ H) as (d & rest & Heq & Hd & Hf).
    exists d, rest. by rewrite Hf.
  - by intros ->.
  - by intros ->.
  - by intros ->.
  - intros info. destruct (Py.contains "_" (HUB_TOKEN o)); [|by eexists _, _].
    rewrite split_head. by eexists _, _.
Qed.

Lemma device_id_spec_witness :
  device_id (Options (Some "abc123_devkey") None None) = Ok "abc123"
  ∧ device_id (Options (Some "nodash") None None) = Ok "unknown".
Proof.
  split.
  - by apply (device_id_spec (Options (Some "abc123_devkey") None None)).
  - by apply (device_id_spec (Options (Some "nodash") None None)).
Defined.

(** * Theme registry reconciliation *)

(** C2: a second application of the theme-registry reconciliation changes
    nothing.  At start-up the second application returns its input and
    reports no change, with or without a [frontend:] section in the first
    input; for a request, the document after two applications is the
    document after one. *)
Theorem theme_registry_idempotent (doc : string) (w : world) :
  add_themes_config (add_themes_config doc).1 = ((add_themes_config doc).1, false)
  ∧ w_fs (add_theme_configuration (add_theme_configuration w).2).2
    = w_fs (add_theme_configuration w).2.
Proof.
  split.
  - apply add_themes_config_done, add_themes_config_marker.
  - destruct (add_theme_configuration_cases w) as [H|[Hm H]].
    + rewrite (add_theme_configuration_fs _ w H). done.
    + apply add_theme_configuration_done. rewrite H. by apply contains_app_r.
Qed.

(** * Other files leave the document alone *)

Section Frame.

Implicit Types f : fs.

Lemma walk_plain f cur comps d :
  ".." ∉ comps → Fs.walk f cur comps = inr d → d = cur ++ comps.
Proof.
  revert cur. induction comps as [|c comps IH]; intros cur Hn; cbn [Fs.walk].
  - intros [= <-]. by rewrite app_nil_r.
  - apply not_elem_of_cons in Hn as [Hc Hn].
    rewrite decide_False by done.
    destruct (f !! (cur ++ [c])) as [[]|]; try done.
    intros ->%IH; [|done]. by rewrite <- app_assoc.
Qed.

Lemma locate_snoc f l a :
  Fs.locate f (l ++ [a]) =
  match Fs.walk f [] l with
  | inl e => inl e
  | inr d => if decide (a = "..") then inr (removelast d) else inr (d ++ [a])
  end.
Proof.
  unfold Fs.locate. destruct (l ++ [a]) as [|c p] eqn:E.
  - by destruct l.
  - rewrite <- E. by rewrite removelast_last, last_last.
Qed.

(** A path without [..] leads to itself. *)
Lemma locate_plain f p q : ".." ∉ p → Fs.locate f p = inr q → q = p.
Proof.
  intros Hn. destruct (decide (p = [])) as [->|Hp]; [by intros [= <-]|].
  destruct (exists_last Hp) as (l & a & ->).
  apply not_elem_of_app in Hn as [Hl Ha]. apply not_elem_of_cons in Ha as [Ha _].
  rewrite locate_snoc.
  destruct (Fs.walk f [] l) as [e|d] eqn:Hw; [done|].
  apply walk_plain in Hw as ->; [|done].
  rewrite decide_False by done. by intros [= <-].
Qed.

Lemma open_write_frame keep f p text f' :
  ".." ∉ p → p ≠ [] →
  Fs.open_write keep f p text = Ok f' → ∃ n, f' = <[p := n]> f.
Proof.
  intros Hn Hp. unfold Fs.open_write.
  destruct (Fs.locate f p) as [e|q] eqn:Hl; [done|].
  apply locate_plain in Hl as ->; [|done].
  destruct (Fs.node_at f p) as [[|old]|]; [done| |]; intros [= <-]; eauto.
Qed.

Lemma mkdir_exist_ok_frame f p f' :
  ".." ∉ p →
  Fs.mkdir_exist_ok f p = Ok f' → f' = f ∨ f' = <[p := Dir]> f.
Proof.
  intros Hn. unfold Fs.mkdir_exist_ok, Fs.os_mkdir.
  destruct (Fs.locate f p) as [e|q] eqn:Hl.
  - destruct e; [done|..]; destruct (Fs.is_dir f p); intros [= <-] || done; by left.
  - apply locate_plain in Hl as ->; [|done].
    destruct (Fs.node_at f p).
    + destruct (Fs.is_dir f p); [|done]. intros [= <-]. by left.
    + intros [= <-]. by right.
Qed.

Lemma doc_of_insert f p n :
  p ≠ ["config"] → p ≠ config_file → doc_of (<[p := n]> f) = doc_of f.
Proof. intros H1 H2. apply doc_of_ext; by rewrite lookup_insert_ne. Qed.

End Frame.

(** * Start-up reconciliation in the file system *)

Ltac plain_path := rewrite !not_elem_of_cons; repeat split; try done; apply not_elem_of_nil.

Lemma mkdir_themes_doc f f' : Fs.mkdir_exist_ok f themes_dir = Ok f' → doc_of f' = doc_of f.
Proof.
  intros [->| ->]%mkdir_exist_ok_frame; [done| |rewrite themes_dir_eq; plain_path].
  by apply doc_of_insert.
Qed.

Lemma theme_file_eq : theme_file = ["config"; "themes"; "controll.yaml"].
Proof. reflexivity. Qed.

Lemma write_theme_doc f text f' :
  Fs.write_text f theme_file text = Ok f' → doc_of f' = doc_of f.
Proof.
  intros [n ->]%open_write_frame; [|rewrite theme_file_eq; plain_path|done].
  by apply doc_of_insert.
Qed.

Lemma theme_path_ne : Path.str theme_file ≠ Path.str config_file.
Proof. done. Qed.

Ltac trace_eq := cbn [fst snd w_fs w_trace]; rewrite <- ?app_assoc; reflexivity.

Ltac no_config_write :=
  let t := fresh "t" in let Hin := fresh "Hin" in
  intros t Hin; cbn [app] in Hin;
  repeat (apply elem_of_cons in Hin as [Hin|Hin]; [try discriminate Hin|]);
  try (by apply elem_of_nil in Hin);
  try (injection Hin as Hin _; by destruct theme_path_ne).

(** Start-up works on the text as read, and writes that text back when a
    step changed it. *)
Lemma install_run w :
  let doc := doc_of (w_fs w) in
  let text := universal_newlines doc in
  let w' := (install_controll_branding w).2 in
  ∃ evs, w_trace w' = w_trace w ++ evs
    ∧ (∀ t, EvWrite (Path.str config_file) t ∈ evs →
         (reconcile text).2 = true ∧ t = (reconcile text).1 ∧ doc_of (w_fs w') = t)
    ∧ ((install_controll_branding w).1 = Ok tt →
         if (reconcile text).2
         then doc_of (w_fs w') = (reconcile text).1
         else doc_of (w_fs w') = doc)
    ∧ (doc_of (w_fs w') = doc ∨ doc_of (w_fs w') = (reconcile text).1).
Proof.
  intros doc text w'. subst w' text. unfold install_controll_branding. fold theme_file. run.
  cbn [w_fs w_trace].
  destruct (Fs.mkdir_exist_ok (w_fs w) themes_dir) as [fm|e] eqn:Hm.
  2: { eexists. split; [trace_eq|]. split; [no_config_write|]. split; [done|]. by left. }
  cbn [w_fs w_trace].
  destruct (Fs.write_text fm theme_file CONTROLL_THEME) as [ft|e] eqn:Ht.
  2: { eexists. split; [trace_eq|]. split; [no_config_write|]. split; [done|].
       left. by eapply mkdir_themes_doc. }
  assert (doc_of ft = doc) as Hdoc.
  { unfold doc. erewrite write_theme_doc by done. by eapply mkdir_themes_doc. }
  cbn [w_fs w_trace].
  match goal with |- context [read_config ?w0] => destruct (read_config_eq w0) as (r & -> & Hr) end.
  destruct r as [d|e].
  2: { eexists. split; [trace_eq|]. split; [no_config_write|]. split; [done|]. by left. }
  specialize (Hr d eq_refl). cbn [w_fs] in Hr. rewrite Hdoc in Hr. subst d.
  unfold reconcile.
  destruct (add_controll_name (universal_newlines doc)) as [wn named].
  destruct (add_themes_config wn) as [wt themed].
  destruct named, themed; cbn [orb fst snd w_fs w_trace ret].
  4: { eexists. split; [trace_eq|]. split; [no_config_write|]. split; [done|]. by left. }
  all: destruct (Fs.write_text ft config_file wt) as [fc|e] eqn:Hc;
    [ apply write_config in Hc
    | eexists; split; [trace_eq|]; split; [no_config_write|]; split; [done|]; by left ].
  all: eexists; split; [trace_eq|]; split; [|split; [done|by right]].
  all: intros t Hin; cbn [app] in Hin.
  all: repeat (apply elem_of_cons in Hin as [Hin|Hin]; [try discriminate Hin|]);
         try (by apply elem_of_nil in Hin).
  all: try (injection Hin as Hin _; by destruct theme_path_ne).
  all: injection Hin as ->; done.
Qed.

Lemma events_of_app {A} (m : M A) w evs :
  w_trace (m w).2 = w_trace w ++ evs → events_of m w = evs.
Proof. intros H. unfold events_of. rewrite H. apply drop_app_length. Qed.







(** C4: start-up on an empty document, when it succeeds, leaves a document
    with the Controll name under [homeassistant:] and the theme-registry
    line; a second start-up keeps that document and does not write it.  In
    any world, the document is written only when a step reported a change. *)
Theorem startup_on_empty_document (w w1 : world) :
  doc_of (w_fs w) = "" →
  install_controll_branding w = (Ok tt, w1) →
  doc_of (w_fs w1) = startup_name_block +:+ startup_frontend_block
  ∧ Py.contains ("homeassistant:" +:+ Py.nl +:+ "  name: Controll") (doc_of (w_fs w1)) = true
  ∧ Py.contains THEMES_LINE (doc_of (w_fs w1)) = true
  ∧ doc_of (w_fs (install_controll_branding w1).2) = doc_of (w_fs w1)
  ∧ (∀ t, EvWrite (Path.str config_file) t ∉ events_of install_controll_branding w1)
  ∧ (∀ w0 t, EvWrite (Path.str config_file) t ∈ events_of install_controll_branding w0 →
             (reconcile (doc_of (w_fs w0))).2 = true).
Proof.
  intros Hempty Hrun.
  assert (doc_of (w_fs w1) = startup_name_block +:+ startup_frontend_block) as Hdoc.
  { destruct (install_run w) as (evs & _ & _ & Hok & _).
    rewrite Hrun, Hempty in Hok. by apply Hok. }
  split; [done|]. rewrite Hdoc. split; [reflexivity|]. split; [reflexivity|].
  destruct (install_run w1) as (evs & Htr & Hwr & _ & Hcases).
  rewrite Hdoc in Hwr, Hcases. split; [|split].
  - by destruct Hcases as [->| ->].
  - intros t Hin. rewrite (events_of_app _ _ _ Htr) in Hin.
    by destruct (Hwr t Hin) as [? _].
  - intros w0 t Hin. destruct (install_run w0) as (evs0 & Htr0 & Hwr0 & _).
    rewrite (events_of_app _ _ _ Htr0) in Hin. destruct (Hwr0 t Hin) as [Hflag _].
    by rewrite reconcile_flag_universal in Hflag.
Qed.

Lemma startup_on_empty_document_witness :
  let w := World {[ ["config"] := Dir ]} [] in
  let w1 := (install_controll_branding w).2 in
  doc_of (w_fs w) = ""
  ∧ install_controll_branding w = (Ok tt, w1)
  ∧ doc_of (w_fs w1) = startup_name_block +:+ startup_frontend_block
  ∧ doc_of (w_fs (install_controll_branding w1).2) = doc_of (w_fs w1).
Proof.
  intros w w1.
  assert (doc_of (w_fs w) = "") as H1 by reflexivity.
  assert (install_controll_branding w = (Ok tt, w1)) as H2 by reflexivity.
  pose proof (startup_on_empty_document w w1 H1 H2) as (H3 & _ & _ & H4 & _).
  by repeat split.
Defined.

(** * The heartbeat *)

Section Heartbeat.

Variable o : options.
Variable sup : string.
Variable net : http_env.

Lemma device_id_total : ∃ d, device_id o = Ok d.
Proof.
  unfold device_id. destruct (Py.contains "_" (HUB_TOKEN o)); [|by eexists].
  rewrite split_head. by eexists.
Qed.

Lemma session_get_json_run url w :
  session_get_json sup net url w
  = (http_get_json net url, World (w_fs w) (w_trace w ++ [get_event sup url])).
Proof. unfold session_get_json. run. by destruct (http_get_json net url). Qed.

(** A fetch asks once; whether it succeeds does not depend on the world. *)
Lemma fetch_ha_version_run :
  ∃ r, ∀ w, fetch_ha_version sup net w
            = (r, World (w_fs w) (w_trace w ++ [get_event sup (SUPERVISOR_API +:+ "/core/info")])).
Proof.
  unfold fetch_ha_version.
  destruct (http_get_json net (SUPERVISOR_API +:+ "/core/info")) as [core|e] eqn:Hg.
  - destruct (py_get core "data" (JDict [])) as [data|e] eqn:Hd.
    + exists (py_get data "version" JNull). intros w. run.
      rewrite session_get_json_run, Hg, Hd. by destruct (py_get data "version" JNull).
    + exists (Raise e). intros w. run. by rewrite session_get_json_run, Hg, Hd.
  - exists (Raise e). intros w. run. by rewrite session_get_json_run, Hg.
Qed.

Lemma fetch_entities_count_run :
  ∃ r, ∀ w, fetch_entities_count sup net w
            = (r, World (w_fs w) (w_trace w ++ [get_event sup (HA_API +:+ "/states")])).
Proof.
  unfold fetch_entities_count.
  destruct (http_get_json net (HA_API +:+ "/states")) as [states|e] eqn:Hg.
  - destruct (py_len states) as [n|e] eqn:Hl.
    + exists (Ok (JInt n)). intros w. run. by rewrite session_get_json_run, Hg, Hl.
    + exists (Raise e). intros w. run. by rewrite session_get_json_run, Hg, Hl.
  - exists (Raise e). intros w. run. by rewrite session_get_json_run, Hg.
Qed.

Lemma collect_run key fetch info w r w' :
  fetch w = (r, w') →
  collect key fetch info w
  = (Ok (match r with Ok v => <[key := v]> info | Raise _ => info end), w').
Proof. intros H. unfold collect, try_except. run. rewrite H. by destruct r. Qed.

Lemma info_after_version rv rc :
  default JNull (info_after rv rc !! "ha_version") = match rv with Ok v => v | Raise _ => JNull end.
Proof. unfold info_after. destruct rv, rc; by simplify_map_eq. Qed.

Lemma info_after_count rv rc :
  default (JInt 0) (info_after rv rc !! "entities_count")
  = match rc with Ok n => n | Raise _ => JInt 0 end.
Proof. unfold info_after. destruct rv, rc; by simplify_map_eq. Qed.

(** A turn with a hub token: two fetches, the post, one log line, the sleep. *)
Lemma heartbeat_cycle_run rv rc d w :
  HUB_TOKEN o ≠ "" →
  device_id o = Ok d →
  (∀ w0, fetch_ha_version sup net w0
         = (rv, World (w_fs w0) (w_trace w0 ++ [get_event sup (SUPERVISOR_API +:+ "/core/info")]))) →
  (∀ w0, fetch_entities_count sup net w0
         = (rc, World (w_fs w0) (w_trace w0 ++ [get_event sup (HA_API +:+ "/states")]))) →
  ∃ l, heartbeat_cycle o sup net w
       = (Ok tt,
          World (w_fs w)
            (w_trace w ++
             [ get_event sup (SUPERVISOR_API +:+ "/core/info");
               get_event sup (HA_API +:+ "/states");
               EvHttp "POST" (heartbeat_url o) []
                 (Some (JDict [ ("device_id", JStr d);
                                ("ha_version", match rv with Ok v => v | Raise _ => JNull end);
                                ("entities_count", match rc with Ok n => n | Raise _ => JInt 0 end);
                                ("uptime", JInt 0) ]));
               l;
               EvSleep (HEARTBEAT_INTERVAL o) ])).
Proof.
  intros Htok Hd Hv Hc.
  unfold heartbeat_cycle, try_except.
  rewrite bool_decide_eq_false_2 by done.
  unfold mbind at 1 2 3 4, M_bind, bind.
  rewrite (collect_run _ _ _ _ _ _ (Hv w)).
  rewrite (collect_run _ _ _ _ _ _ (Hc _)).
  fold (info_after rv rc).
  unfold post_heartbeat, heartbeat_payload, try_except, session_post, sleep. rewrite Hd. run.
  rewrite info_after_version, info_after_count.
  cbn [w_fs w_trace].
  match goal with |- context [http_post_status net ?u ?p] =>
    destruct (http_post_status net u p) as [st|e] end.
  - destruct (bool_decide (st = 200)); eexists; cbn [w_fs w_trace];
      by rewrite <- !app_assoc.
  - eexists. cbn [w_fs w_trace]. by rewrite <- !app_assoc.
Qed.

End Heartbeat.

(** C7: in a turn with a hub token the payload is composed and posted and
    the turn ends normally, whatever the two fetches did; a failed version
    fetch leaves [ha_version] null, a failed count fetch leaves
    [entities_count] at 0, and a fetch that succeeded gives its value. *)
Theorem heartbeat_best_effort (o : options) (sup : string) (net : http_env) (w : world) :
  HUB_TOKEN o ≠ "" →
  ∃ d ver cnt,
    device_id o = Ok d
    ∧ (heartbeat_cycle o sup net w).1 = Ok tt
    ∧ EvHttp "POST" (heartbeat_url o) []
        (Some (JDict [ ("device_id", JStr d); ("ha_version", ver);
                       ("entities_count", cnt); ("uptime", JInt 0) ]))
      ∈ events_of (heartbeat_cycle o sup net) w
    ∧ (∀ w0 e, (fetch_ha_version sup net w0).1 = Raise e → ver = JNull)
    ∧ (∀ w0 e, (fetch_entities_count sup net w0).1 = Raise e → cnt = JInt 0)
    ∧ (∀ w0 v, (fetch_ha_version sup net w0).1 = Ok v → ver = v)
    ∧ (∀ w0 n, (fetch_entities_count sup net w0).1 = Ok n → cnt = n).
Proof.
  intros Htok.
  destruct (device_id_total o) as [d Hd].
  destruct (fetch_ha_version_run sup net) as [rv Hv].
  destruct (fetch_entities_count_run sup net) as [rc Hc].
  destruct (heartbeat_cycle_run o sup net rv rc d w Htok Hd Hv Hc) as [l Hrun].
  exists d, (match rv with Ok v => v | Raise _ => JNull end),
            (match rc with Ok n => n | Raise _ => JInt 0 end).
  split; [done|]. split; [by rewrite Hrun|]. split.
  - erewrite events_of_app; [|by rewrite Hrun].
    rewrite !elem_of_cons. auto.
  - repeat split; intros w0 x; rewrite ?Hv, ?Hc; cbn [fst]; by intros ->.
Qed.

Lemma heartbeat_best_effort_witness :
  let o := Options (Some "abc123_devkey") None None in
  let net := HttpEnv (λ _, Raise (ClientError "Cannot connect to host supervisor:80"))
                     (λ _ _, Ok 200) in
  HUB_TOKEN o ≠ ""
  ∧ EvHttp "POST" "https://api.controll.it/api/provision/heartbeat" []
      (Some (JDict [ ("device_id", JStr "abc123"); ("ha_version", JNull);
                     ("entities_count", JInt 0); ("uptime", JInt 0) ]))
    ∈ events_of (heartbeat_cycle o "t" net) (World ∅ []).
Proof.
  intros o net. split; [done|].
  destruct (heartbeat_best_effort o "t" net (World ∅ []))
    as (d & ver & cnt & Hd & _ & Hin & Hv & Hc & _); [done|].
  injection Hd as <-.
  rewrite (Hv (World ∅ []) (ClientError "Cannot connect to host supervisor:80") eq_refl) in Hin.
  rewrite (Hc (World ∅ []) (ClientError "Cannot connect to host supervisor:80") eq_refl) in Hin.
  exact Hin.
Defined.

(** * Discovery *)

Section Discovery.

Variable o : options.
Variable sup : string.
Variable net : http_env.
Variable scan : world → (list json * option exn) * world.

Lemma lookup_subprocess : lookup_global "subprocess" = Raise (NameError "subprocess").
Proof. reflexivity. Qed.

(** The scan stops at its first statement, whatever follows it. *)
Lemma scan_network_run w :
  scan_network scan w = (Ok [], World (w_fs w) (w_trace w ++ [scan_failed])).
Proof. unfold scan_network, port_scan. by rewrite lookup_subprocess. Qed.

Lemma handle_discovery_run rq w :
  verify_token o rq = true →
  handle_discovery o sup net scan rq w =
  match http_get_json net (SUPERVISOR_API +:+ "/network/info") with
  | Ok _ =>
      (Ok discovered_nothing,
       World (w_fs w)
         (w_trace w ++ [get_event sup (SUPERVISOR_API +:+ "/network/info"); scan_failed]))
  | Raise e =>
      (Ok (error_response e),
       World (w_fs w)
         (w_trace w ++ [get_event sup (SUPERVISOR_API +:+ "/network/info");
                        EvLog ERROR ("Discovery error: " +:+ exn_str e)]))
  end.
Proof.
  intros Hv. unfold handle_discovery, try_except. rewrite Hv. cbn [negb].
  unfold mbind at 1 2, M_bind, bind.
  rewrite session_get_json_run.
  destruct (http_get_json net (SUPERVISOR_API +:+ "/network/info")) as [network|e].
  - rewrite scan_network_run. cbn [w_fs w_trace]. by rewrite <- app_assoc.
  - run. cbn [w_fs w_trace]. by rewrite <- app_assoc.
Qed.

End Discovery.

(** C10 (amended): an authorized discovery request whose network-info fetch
    succeeds is answered with success and an empty [discovered] list, and the
    failed scan is logged: [subprocess] is not bound, so the scan raises at
    its first statement, whatever the scan would do.  When the fetch raises,
    the answer is the error response of that exception. *)
Theorem discovery_finds_nothing
    (o : options) (sup : string) (net : http_env)
    (scan : world → (list json * option exn) * world) (rq : request) (w : world) :
  verify_token o rq = true →
  (∀ network, http_get_json net (SUPERVISOR_API +:+ "/network/info") = Ok network →
     (handle_discovery o sup net scan rq w).1 = Ok discovered_nothing
     ∧ scan_failed ∈ events_of (handle_discovery o sup net scan rq) w)
  ∧ (∀ e, http_get_json net (SUPERVISOR_API +:+ "/network/info") = Raise e →
     (handle_discovery o sup net scan rq w).1 = Ok (error_response e)).
Proof.
  intros Hv. split.
  - intros network Hn. rewrite (handle_discovery_run o sup net scan rq w Hv), Hn.
    split; [done|].
    erewrite events_of_app; [|by rewrite (handle_discovery_run o sup net scan rq w Hv), Hn].
    rewrite !elem_of_cons. auto.
  - intros e Hn. by rewrite (handle_discovery_run o sup net scan rq w Hv), Hn.
Qed.

Lemma discovery_finds_nothing_witness :
  let o := Options (Some "tok") None None in
  let net := HttpEnv (λ _, Ok (JDict [])) (λ _ _, Ok 200) in
  let rq := Request [("Authorization", "Bearer tok")] (Ok ∅) in
  verify_token o rq = true
  ∧ (handle_discovery o "t" net (λ w, (([JStr "host"], None), w)) rq (World ∅ [])).1
    = Ok discovered_nothing.
Proof.
  intros o net rq. split; [reflexivity|].
  by apply (discovery_finds_nothing o "t" net (λ w, (([JStr "host"], None), w)) rq
              (World ∅ []) eq_refl) with (network := JDict []).
Defined.

(** Counterexample to C10 as stated: with the Supervisor unreachable an
    authorized request is not answered with success. *)
Lemma discovery_fails_with_supervisor :
  ¬ ∀ (o : options) (sup : string) (net : http_env)
      (scan : world → (list json * option exn) * world) (rq : request) (w : world),
      verify_token o rq = true →
      (handle_discovery o sup net scan rq w).1 = Ok discovered_nothing.
Proof.
  intros H.
  specialize (H (Options (Some "tok") None None) "t"
                (HttpEnv (λ _, Raise (ClientError "Cannot connect to host supervisor:80"))
                         (λ _ _, Ok 200))
                (λ w, (([], None), w))
                (Request [("Authorization", "Bearer tok")] (Ok ∅))
                (World ∅ []) eq_refl).
  discriminate H.
Qed.

(** * Failure responses *)

Section Failures.

Variable o : options.
Variable yaml : bool.






End Failures.




(** * The theme step of a request next to the one of start-up *)

(** C1: on a document that has a [frontend:] section and no themes marker,
    start-up puts the theme-registry line under the existing section, while
    the theme installation request appends a second [frontend:] section. *)
Theorem install_theme_request_appends_second_frontend :
  let o := Options (Some "tok") None None in
  let doc := "frontend:" +:+ Py.nl in
  let w := World (<[config_file := File doc]> {[ ["config"] := Dir ]}) [] in
  let w' := (handle_install_theme o (theme_request "controll" "x") w).2 in
  doc_of (w_fs w) = doc
  ∧ Py.contains "themes:" doc = false
  ∧ Py.contains "frontend:" doc = true
  ∧ (add_themes_config doc).1 = "frontend:" +:+ Py.nl +:+ THEMES_LINE +:+ Py.nl
  ∧ doc_of (w_fs w') = doc +:+ request_frontend_block
  ∧ doc_of (w_fs w') ≠ (add_themes_config doc).1.
Proof. repeat split. by vm_compute. Qed.

(** * Further properties of the add-on *)

(** * Path components *)

Section Components.

Lemma contains_empty s : Py.contains "" s = true.
Proof. apply contains_startswith, startswith_empty. Qed.

(** With nothing to skip the first field is a prefix of the text; every field
    is a piece of it. *)
Lemma split_from_fields sep s skip :
  (skip = 0 → ∃ q, s = (Py.split_from sep skip s).1 +:+ q)
  ∧ ∀ c, c ∈ (Py.split_from sep skip s).1 :: (Py.split_from sep skip s).2 →
         Py.contains c s = true.
Proof.
  revert skip. induction s as [|a s IH]; intros skip.
  - split; [by exists ""|]. cbn. intros c [->|[]%elem_of_nil]%elem_of_cons. done.
  - destruct skip as [|k].
    + cbn [Py.split_from].
      destruct (Py.startswith (String a s) sep) eqn:Hs.
      * destruct (IH (String.length sep - 1)) as [_ IH2].
        destruct (Py.split_from sep (String.length sep - 1) s) as [f r]. cbn [fst snd] in *.
        split; [by exists (String a s)|].
        intros c [->|Hc]%elem_of_cons; [apply contains_empty|].
        by apply contains_cons, IH2.
      * destruct (IH 0) as [IH1 IH2].
        destruct (Py.split_from sep 0 s) as [f r]. cbn [fst snd] in *.
        destruct (IH1 eq_refl) as [q Hq]. split.
        -- intros _. exists q. by rewrite app_String, <- Hq.
        -- intros c [->|Hc]%elem_of_cons.
           ++ apply contains_startswith. rewrite Hq at 1. apply (startswith_app (String a f)).
           ++ apply contains_cons, IH2. by apply elem_of_cons; right.
    + cbn [Py.split_from]. destruct (IH k) as [_ IH2]. split; [done|].
      intros c Hc. by apply contains_cons, IH2.
Qed.

Lemma split_fields s sep c : c ∈ Py.split s sep → Py.contains c s = true.
Proof.
  unfold Py.split. intros Hc. apply (split_from_fields sep s 0).
  by destruct (Py.split_from sep 0 s).
Qed.

(** A component of a path string is a piece of the string. *)
Lemma parse_components s c : c ∈ Path.parse s → Py.contains c s = true.
Proof. unfold Path.parse. intros [_ Hc]%list_elem_of_filter. by eapply split_fields. Qed.

Lemma parse_plain s : Py.contains ".." s = false → ".." ∉ Path.parse s.
Proof. intros H Hc%parse_components. congruence. Qed.

Lemma config_dir_eq : config_dir = ["config"].
Proof. reflexivity. Qed.

Lemma joinpath_plain s :
  Py.contains ".." s = false → ".." ∉ Path.joinpath config_dir s.
Proof.
  intros H. unfold Path.joinpath. destruct (Py.startswith s "/"); [by apply parse_plain|].
  rewrite config_dir_eq. apply not_elem_of_app. split; [|by apply parse_plain].
  intros [Hc|Hc]%elem_of_cons; [discriminate Hc|by apply elem_of_nil in Hc].
Qed.

End Components.

(** * Where a file write can reach *)

Section Confinement.

Implicit Types f : fs.

Lemma os_mkdir_frame f p f' :
  ".." ∉ p → Fs.os_mkdir f p = Ok f' → f' = <[p := Dir]> f ∧ p ≠ [].
Proof.
  intros Hn. unfold Fs.os_mkdir.
  destruct (Fs.locate f p) as [e|q] eqn:Hl; [done|].
  apply locate_plain in Hl as ->; [|done].
  destruct (Fs.node_at f p) eqn:Hp; [done|]. intros [= <-].
  split; [done|]. by intros ->.
Qed.

(** Making the parents changes entries at prefixes of the path only. *)
Lemma mkdir_parents_rev_changes rp f f' q :
  ".." ∉ rev rp →
  Fs.mkdir_parents_rev rp f = Ok f' →
  f' !! q ≠ f !! q → q ≠ [] ∧ q `prefix_of` rev rp.
Proof.
  revert f f'. induction rp as [|a rp IH]; intros f f' Hn.
  - cbn. intros [= <-]. done.
  - cbn [Fs.mkdir_parents_rev].
    destruct (Fs.os_mkdir f (rev (a :: rp))) as [f1|e] eqn:Hm.
    + intros [= <-] Hq. apply os_mkdir_frame in Hm as [-> Hp]; [|done].
      destruct (decide (rev (a :: rp) = q)) as [<-|Hne]; [done|].
      by rewrite lookup_insert_ne in Hq.
    + assert (∀ f0, (if Fs.is_dir f (rev (a :: rp)) then Ok f else Raise e) = Ok f0 →
                    f0 !! q ≠ f !! q → q ≠ [] ∧ q `prefix_of` rev (a :: rp)) as Hsame.
      { intros f0. destruct (Fs.is_dir f (rev (a :: rp))); [|done]. by intros [= <-]. }
      destruct e as [n file| | | | | |]; try apply Hsame.
      destruct n; try apply Hsame.
      destruct (Fs.mkdir_parents_rev rp f) as [f1|e1] eqn:Hr; [|done].
      intros Hk Hq.
      assert (".." ∉ rev rp) as Hn'.
      { intros Hin. apply Hn. cbn [rev]. apply elem_of_app. by left. }
      apply mkdir_exist_ok_frame in Hk as [->| ->]; [| |done].
      * destruct (IH f f1 Hn' Hr Hq) as [? Hpre]. split; [done|].
        cbn [rev]. by apply prefix_app_r.
      * destruct (decide (rev (a :: rp) = q)) as [<-|Hne].
        { split; [|done]. cbn [rev]. by destruct (rev rp). }
        rewrite lookup_insert_ne in Hq by done.
        destruct (IH f f1 Hn' Hr Hq) as [? Hpre]. split; [done|].
        cbn [rev]. by apply prefix_app_r.
Qed.

Lemma mkdir_parents_changes p f f' q :
  ".." ∉ p → Fs.mkdir_parents f p = Ok f' →
  f' !! q ≠ f !! q → q ≠ [] ∧ q `prefix_of` p.
Proof.
  unfold Fs.mkdir_parents. intros Hn Hm Hq.
  rewrite <- (rev_involutive p). apply (mkdir_parents_rev_changes _ f f'); [|done..].
  by rewrite rev_involutive.
Qed.

End Confinement.

Lemma removelast_prefix {A} (l : list A) : removelast l `prefix_of` l.
Proof.
  destruct (decide (l = [])) as [->|Hl]; [done|].
  destruct (exists_last Hl) as (l' & a & ->). rewrite removelast_last.
  by apply prefix_app_r.
Qed.

Lemma removelast_plain (l : list string) : ".." ∉ l → ".." ∉ removelast l.
Proof.
  intros Hn Hin. apply Hn. destruct (removelast_prefix l) as [k Hk].
  rewrite Hk. apply elem_of_app. by left.
Qed.

Lemma prefix_head (q p : list string) c rest :
  q ≠ [] → q `prefix_of` p → p = c :: rest → ∃ rest', q = c :: rest'.
Proof.
  intros Hq [k ->] Hp. destruct q as [|c' q]; [done|].
  injection Hp as -> _. eauto.
Qed.

(** X4: a file write request changes entries of the file system below
    [/config] only: whatever entry differs afterwards has [config] as its
    first component. *)
Theorem handle_file_write_confined (o : options) (rq : request) (w : world) (q : Path.t) :
  w_fs (handle_file_write o rq w).2 !! q ≠ w_fs w !! q →
  ∃ rest, q = "config" :: rest.
Proof.
  unfold handle_file_write.
  destruct (verify_token o rq); cbn [negb]; [|done].
  unfold try_except. run. unfold mkdir_parents, fs_update.
  destruct (req_json rq) as [data|e]; [|done].
  set (path := default "" (data !! "path")).
  set (content := default "" (data !! "content")).
  destruct (Py.contains ".." path) eqn:Hdots; [done|].
  destruct (Py.startswith path "/") eqn:Habs; [done|]. cbn [orb].
  assert (Path.joinpath config_dir path = "config" :: Path.parse path) as Hfull.
  { unfold Path.joinpath. by rewrite Habs. }
  assert (".." ∉ Path.joinpath config_dir path) as Hplain by (by apply joinpath_plain).
  set (full := Path.joinpath config_dir path) in *.
  destruct (Fs.mkdir_parents (w_fs w) (Path.parent full)) as [f1|e] eqn:Hm; [|done].
  cbn [w_fs w_trace].
  assert (∀ k, f1 !! k ≠ w_fs w !! k → ∃ rest, k = "config" :: rest) as H1.
  { intros k Hk.
    destruct (mkdir_parents_changes _ _ _ k (removelast_plain _ Hplain) Hm Hk) as [Hne Hpre].
    eapply prefix_head; [done| |exact Hfull].
    etrans; [exact Hpre|apply removelast_prefix]. }
  destruct (Fs.write_text f1 full content) as [f2|e] eqn:Hw; cbn [snd w_fs]; [|by apply H1].
  intros Hq. apply open_write_frame in Hw as [n ->]; [|done|by rewrite Hfull].
  destruct (decide (full = q)) as [<-|Hne]; [by rewrite Hfull; eauto|].
  rewrite lookup_insert_ne in Hq by done. by apply H1.
Qed.

(** * Writing a file and reading it back *)

Section RoundTrip.

Implicit Types f : fs.

(** An entry deeper than the walk goes is not seen by it. *)
Lemma walk_insert_deeper f k n cur comps :
  length cur + length comps < length k →
  Fs.walk (<[k := n]> f) cur comps = Fs.walk f cur comps.
Proof.
  revert cur. induction comps as [|c comps IH]; intros cur Hlen; [done|].
  cbn [Fs.walk]. cbn [length] in Hlen. destruct (decide (c = "..")).
  - apply IH. pose proof (removelast_prefix cur) as [x Hx].
    apply (f_equal length) in Hx. rewrite length_app in Hx. lia.
  - rewrite lookup_insert_ne.
    + destruct (f !! (cur ++ [c])) as [[]|]; try done.
      apply IH. rewrite length_app. cbn. lia.
    + intros ->. rewrite length_app in Hlen. cbn in Hlen. lia.
Qed.

Lemma locate_insert_self f p n :
  Fs.locate f p = inr p → Fs.locate (<[p := n]> f) p = inr p.
Proof.
  unfold Fs.locate. destruct p as [|c p]; [done|].
  rewrite walk_insert_deeper; [done|].
  pose proof (removelast_prefix (c :: p)) as [x Hx].
  destruct (decide (x = [])) as [->|Hne].
  - rewrite app_nil_r in Hx. exfalso.
    apply (f_equal length) in Hx.
    destruct (exists_last (l := c :: p)) as (l' & a & Hl); [done|].
    rewrite Hl, removelast_last, length_app in Hx. cbn in Hx. lia.
  - apply (f_equal length) in Hx. rewrite length_app in Hx.
    destruct x; [done|]. cbn in *. lia.
Qed.

Lemma write_text_ok f p text f' :
  ".." ∉ p → p ≠ [] → Fs.write_text f p text = Ok f' →
  f' = <[p := File text]> f ∧ Fs.locate f p = inr p.
Proof.
  intros Hn Hp. unfold Fs.write_text, Fs.open_write.
  destruct (Fs.locate f p) as [e|q] eqn:Hl; [done|].
  pose proof (locate_plain _ _ _ Hn Hl) as ->.
  by destruct (Fs.node_at f p) as [[|old]|]; [done| |]; intros [= <-].
Qed.

(** What was written is there to read. *)
Lemma read_after_write f p text f' :
  ".." ∉ p → p ≠ [] → Fs.write_text f p text = Ok f' →
  Fs.exists_ f' p = true ∧ Fs.read_text f' p = Ok text.
Proof.
  intros Hn Hp Hw. apply write_text_ok in Hw as [-> Hl]; [|done..].
  unfold Fs.exists_, Fs.read_text, Fs.stat. rewrite (locate_insert_self _ _ _ Hl).
  destruct p as [|c p]; [done|]. cbn [Fs.node_at]. by rewrite lookup_insert_eq.
Qed.

End RoundTrip.

(** X5: what a file write request stored, a file read request for the same
    path returns, when the content has no carriage return (a reader gets
    those as line feeds). *)
Theorem file_write_then_read
    (o : options) (rq rq' : request) (data query : gmap string string)
    (path content : string) (w w' : world) (resp : response) :
  req_json rq = Ok data →
  data !! "path" = Some path →
  data !! "content" = Some content →
  Py.contains (String "013" "") content = false →
  handle_file_write o rq w = (Ok resp, w') →
  status resp = 200 →
  verify_token o rq' = true →
  query !! "path" = Some path →
  (handle_file_read o rq' query w').1
  = Ok (json_response [("success", JBool true); ("content", JStr content)] 200).
Proof.
  intros Hdata Hpath Hcontent Hcr Hrun Hst Hv' Hq.
  unfold handle_file_write in Hrun.
  destruct (verify_token o rq); cbn [negb] in Hrun; [|by injection Hrun as <- <-].
  unfold try_except, mbind, M_bind, bind, ret, log, emit, of_result, write_text,
    mkdir_parents, fs_update in Hrun.
  rewrite Hdata, Hpath, Hcontent in Hrun. cbn [default from_option id] in Hrun.
  unfold handle_file_read, try_except, read_text_universal, read_text, path_exists, fs_query.
  run. rewrite Hv', Hq. cbn [negb default from_option id].
  destruct (Py.contains ".." path) eqn:Hdots;
    [cbn [orb] in Hrun; by injection Hrun as <- <-|].
  destruct (Py.startswith path "/") eqn:Habs;
    [cbn [orb] in Hrun; by injection Hrun as <- <-|].
  cbn [orb] in *.
  assert (Path.joinpath config_dir path = "config" :: Path.parse path) as Hfull.
  { unfold Path.joinpath. by rewrite Habs. }
  assert (".." ∉ Path.joinpath config_dir path) as Hplain by (by apply joinpath_plain).
  set (full := Path.joinpath config_dir path) in *.
  destruct (Fs.mkdir_parents (w_fs w) (Path.parent full)) as [f1|e] eqn:Hm;
    [|by injection Hrun as <- <-].
  cbn [w_fs w_trace] in Hrun.
  destruct (Fs.write_text f1 full content) as [f2|e] eqn:Hw;
    [|by injection Hrun as <- <-].
  injection Hrun as <- <-. cbn [w_fs].
  destruct (read_after_write f1 full content f2 Hplain) as [He Hr]; [by rewrite Hfull|done|].
  rewrite He. cbn [negb w_fs]. rewrite Hr. by rewrite universal_newlines_plain.
Qed.

(** * Computations that leave the files alone *)

Section KeepsFiles.

Context {A B : Type}.

Lemma keeps_ret (a : A) : keeps_files (ret a).
Proof. done. Qed.

Lemma keeps_mret (a : A) : keeps_files (mret a : M A).
Proof. done. Qed.

Lemma keeps_raise e : keeps_files (raise e : M A).
Proof. done. Qed.

Lemma keeps_of_result (r : result A) : keeps_files (of_result r).
Proof. done. Qed.

Lemma keeps_bind (m : M A) (k : A → M B) :
  keeps_files m → (∀ a, keeps_files (k a)) → keeps_files (m ≫= k).
Proof.
  intros Hm Hk w. unfold mbind, M_bind, bind. specialize (Hm w).
  destruct (m w) as [[a|e] w1]; cbn [snd] in *; [|done].
  by rewrite Hk.
Qed.

Lemma keeps_try (m : M A) (h : exn → M A) :
  keeps_files m → (∀ e, keeps_files (h e)) → keeps_files (try_except m h).
Proof.
  intros Hm Hh w. unfold try_except. specialize (Hm w).
  destruct (m w) as [[a|e] w1]; cbn [snd] in *; [done|].
  by rewrite Hh.
Qed.

End KeepsFiles.

Lemma keeps_emit e : keeps_files (emit e).
Proof. done. Qed.

Lemma keeps_log l msg : keeps_files (log l msg).
Proof. done. Qed.

Lemma keeps_read_text p : keeps_files (read_text p).
Proof. done. Qed.

Lemma keeps_fs_query {A} (q : fs → A) : keeps_files (fs_query q).
Proof. done. Qed.

Ltac keeps :=
  repeat first
    [ apply keeps_ret | apply keeps_mret | apply keeps_raise | apply keeps_of_result
    | apply keeps_emit | apply keeps_log | apply keeps_read_text | apply keeps_fs_query
    | apply keeps_bind; [|intros ?] | apply keeps_try; [|intros ?]
    | match goal with
      | |- keeps_files (if ?c then _ else _) => destruct c
      | |- keeps_files (let '(_, _) := ?c in _) => destruct c
      end ].

Section ReadOnly.

Variable o : options.
Variable sup : string.
Variable net : http_env.
Variable more : http_more.
Variable yaml : bool.
Variable scan : world → (list json * option exn) * world.
Variable now : string.

Lemma keeps_session_get_json url : keeps_files (session_get_json sup net url).
Proof. unfold session_get_json. keeps. Qed.

Lemma keeps_scan_network : keeps_files (scan_network scan).
Proof. intros w. by rewrite scan_network_run. Qed.

Lemma keeps_iterdir p : keeps_files (λ w, (iterdir (w_fs w) p, w)).
Proof. done. Qed.

End ReadOnly.

(** X3: apart from file write, theme installation and branding, no route
    changes the file system, whatever the request and the answers from
    outside. *)
Theorem other_routes_keep_files
    (o : options) (sup : string) (net : http_env) (more : http_more) (yaml : bool)
    (scan : world → (list json * option exn) * world) (now : string)
    (r : route) (rq : request) (query : gmap string string) (w : world) :
  r ∉ [FileWrite; ThemeInstall; Branding] →
  w_fs (handler o sup net more yaml scan now r rq query w).2 = w_fs w.
Proof.
  intros Hr. revert w. change (keeps_files (handler o sup net more yaml scan now r rq query)).
  destruct r; cbn [handler];
    try by (exfalso; apply Hr; repeat constructor).
  all: unfold handle_health, handle_file_read, handle_file_list, handle_ha_service,
         handle_ha_restart, handle_ha_config, handle_ha_states, handle_addon_list,
         handle_addon_install, handle_system_info, handle_discovery,
         read_text_universal, path_exists, info_part,
         session_post_json, session_post_plain.
  all: keeps; try apply keeps_session_get_json; try apply keeps_scan_network;
       try apply keeps_iterdir.
Qed.

(** * Every route answers *)

Lemma answers_try {A} (m : M A) (h : exn → M A) :
  (∀ e, answers (h e)) → answers (try_except m h).
Proof.
  intros Hh w. unfold try_except. destruct (m w) as [[a|e] w1]; [by exists a|].
  apply Hh.
Qed.

Lemma answers_failure (prefix : string) (e : exn) :
  answers (log ERROR (prefix +:+ exn_str e);; ret (error_response e)).
Proof. intros w. by eexists. Qed.

(** X2: every route answers with a response: no exception leaves a
    handler. *)
Theorem every_route_answers
    (o : options) (sup : string) (net : http_env) (more : http_more) (yaml : bool)
    (scan : world → (list json * option exn) * world) (now : string)
    (r : route) (rq : request) (query : gmap string string) (w : world) :
  ∃ resp, (handler o sup net more yaml scan now r rq query w).1 = Ok resp.
Proof.
  revert w. change (answers (handler o sup net more yaml scan now r rq query)).
  destruct r; cbn [handler].
  all: unfold handle_health, handle_file_write, handle_file_read, handle_file_list,
         handle_ha_service, handle_ha_restart, handle_ha_config, handle_ha_states,
         handle_addon_list, handle_addon_install, handle_system_info, handle_discovery,
         handle_install_theme, handle_set_branding.
  all: try (destruct (verify_token o rq); cbn [negb]).
  all: try (apply answers_try; intros e; apply answers_failure).
  all: intros w; by eexists.
Qed.

(** * The gate in front of the routes *)

Lemma find_route_health method path :
  find_route method path = Some Health → path = "/health".
Proof.
  unfold find_route.
  destruct (list_find _ routes) as [[i x]|] eqn:Hf; [|done].
  apply list_find_Some in Hf as (Hl & [_ Hp] & _). intros [= Hx].
  apply list_elem_of_lookup_2 in Hl. unfold routes in Hl.
  repeat (apply elem_of_cons in Hl as [->|Hl]; [by (discriminate Hx || done)|]).
  by apply elem_of_nil in Hl.
Qed.

(** X1: on every registered route but [/health], a request that fails the
    token check is answered [Unauthorized] with status 401 and the world is
    left as it was: no file, log line or outbound request. *)
Theorem unauthorized_request_rejected
    (o : options) (sup : string) (net : http_env) (more : http_more) (yaml : bool)
    (scan : world → (list json * option exn) * world) (now : string)
    (method path : string) (r : route)
    (rq : request) (query : gmap string string) (w : world) :
  find_route method path = Some r →
  path ≠ "/health" →
  verify_token o rq = false →
  handler o sup net more yaml scan now r rq query w = (Ok unauthorized, w).
Proof.
  intros Hr Hp Hv.
  destruct r; try (by apply find_route_health in Hr); cbn [handler].
  all: unfold handle_file_write, handle_file_read, handle_file_list,
         handle_ha_service, handle_ha_restart, handle_ha_config, handle_ha_states,
         handle_addon_list, handle_addon_install, handle_system_info, handle_discovery,
         handle_install_theme, handle_set_branding.
  all: by rewrite Hv.
Qed.

Lemma unauthorized_request_rejected_witness :
  let o := Options (Some "secret") None None in
  let rq := Request [("Authorization", "Bearer wrong")]
                    (Ok {[ "path" := "configuration.yaml"; "content" := "" ]}) in
  let w := World {[ ["config"] := Dir ]} [] in
  find_route "POST" "/api/file/write" = Some FileWrite
  ∧ "/api/file/write" ≠ "/health"
  ∧ verify_token o rq = false
  ∧ handle_file_write o rq w = (Ok unauthorized, w).
Proof.
  intros o rq w.
  assert (find_route "POST" "/api/file/write" = Some FileWrite) as H1 by reflexivity.
  assert ("/api/file/write" ≠ "/health") as H2 by done.
  assert (verify_token o rq = false) as H3 by reflexivity.
  split; [exact H1|]. split; [exact H2|]. split; [exact H3|].
  exact (unauthorized_request_rejected o "" (HttpEnv (λ _, Ok JNull) (λ _ _, Ok 200))
           (HttpMore (λ _ _, Ok JNull) (λ _, Ok (200, Ok "")))
           true (λ w, (([], None), w)) "" "POST" "/api/file/write" FileWrite rq ∅ w H1 H2 H3).
Defined.

(** * Listing a directory *)

Lemma is_dir_located f p :
  ".." ∉ p → Fs.is_dir f p = true →
  Fs.stat f p = inr Dir ∧ Fs.locate f p = inr p.
Proof.
  intros Hn. unfold Fs.is_dir, Fs.stat.
  destruct (Fs.locate f p) as [e|q] eqn:Hl; [done|].
  pose proof (locate_plain _ _ _ Hn Hl) as ->.
  by destruct (Fs.node_at f p) as [[]|].
Qed.

(** X6: the file list handler only refuses [..]: for an absolute path it
    lists that directory itself, outside the configuration directory, where
    the file read handler answers [Invalid path]. *)
Theorem file_list_follows_absolute_path
    (o : options) (rq : request) (query : gmap string string) (path : string) (w : world) :
  verify_token o rq = true →
  query !! "path" = Some path →
  Py.startswith path "/" = true →
  Py.contains ".." path = false →
  Fs.is_dir (w_fs w) (Path.parse path) = true →
  (handle_file_list o rq query w).1
  = Ok (json_response
          [ ("success", JBool true);
            ("files", JList (file_entry <$> dir_entries (w_fs w) (Path.parse path))) ] 200)
  ∧ (handle_file_read o rq query w).1 = Ok invalid_path.
Proof.
  intros Hv Hq Habs Hdots Hdir.
  destruct (is_dir_located _ _ (parse_plain _ Hdots) Hdir) as [Hstat Hloc].
  split.
  - unfold handle_file_list, try_except, path_exists, fs_query. run.
    rewrite Hv, Hq. cbn [negb default from_option id]. rewrite Hdots.
    rewrite bool_decide_eq_false_2 by (by intros ->).
    unfold Path.joinpath. rewrite Habs.
    unfold Fs.exists_. rewrite Hstat. cbn [negb w_fs].
    unfold iterdir. by rewrite Hstat, Hloc.
  - unfold handle_file_read, try_except. run.
    rewrite Hv, Hq. cbn [negb default from_option id]. by rewrite Hdots, Habs.
Qed.

Lemma file_list_follows_absolute_path_witness :
  let o := Options (Some "tok") None None in
  let rq := Request [("Authorization", "Bearer tok")] (Ok ∅) in
  let f : fs := <[ ["etc"; "passwd"] := File "root" ]> (<[ ["etc"] := Dir ]> {[ ["config"] := Dir ]}) in
  (handle_file_list o rq {[ "path" := "/etc" ]} (World f [])).1
  = Ok (json_response
          [ ("success", JBool true);
            ("files", JList [JDict [ ("name", JStr "passwd"); ("is_dir", JBool false);
                                     ("size", JInt 4) ]]) ] 200).
Proof.
  intros o rq f.
  exact (proj1 (file_list_follows_absolute_path o rq {[ "path" := "/etc" ]} "/etc" (World f [])
                  eq_refl eq_refl eq_refl eq_refl eq_refl)).
Defined.

(** * Branding when the section is there *)

Lemma read_config_raise w e : (read_config w).1 = Raise e → doc_of (w_fs w) = "".
Proof.
  unfold read_config, read_text_universal, mbind, M_bind, bind, path_exists, fs_query,
    read_text, ret, doc_of.
  unfold Fs.exists_, Fs.read_text. generalize config_file as p. intros p.
  destruct (Fs.stat (w_fs w) p) as [x|[|c]] eqn:Hs; cbn [fst w_fs]; rewrite ?Hs; done.
Qed.

(** X9: when the document already has a [homeassistant:] section a branding
    request changes no file; it still answers success with the requested
    name if [yaml] can be imported, and with the import error otherwise. *)
Theorem set_branding_existing_section
    (o : options) (yaml : bool) (rq : request) (data : gmap string string) (w : world) :
  verify_token o rq = true →
  req_json rq = Ok data →
  Py.contains "homeassistant:" (doc_of (w_fs w)) = true →
  let name := default "Controll" (data !! "name") in
  let r := handle_set_branding o yaml rq w in
  w_fs r.2 = w_fs w
  ∧ r.1 = Ok (if yaml
              then json_response
                     [ ("success", JBool true);
                       ("message", JStr ("Branding set to '" +:+ name
                                         +:+ "'. Restart HA to apply."));
                       ("restart_required", JBool true) ] 200
              else error_response (ModuleNotFoundError "yaml")).
Proof.
  intros Hv Hd Hm name r. subst r.
  unfold handle_set_branding, try_except, add_branding, import_yaml. run.
  rewrite Hv, Hd. cbn [negb].
  destruct (read_config_eq w) as (rc & Heq & Hrc). rewrite Heq.
  destruct rc as [doc|e].
  - rewrite (Hrc doc eq_refl), (contains_universal "homeassistant:"), Hm by done.
    cbn [negb]. by destruct yaml.
  - assert ((read_config w).1 = Raise e) as Hr by (by rewrite Heq).
    apply read_config_raise in Hr. by rewrite Hr in Hm.
Qed.

Lemma set_branding_existing_section_witness :
  let o := Options (Some "tok") None None in
  let rq := Request [("Authorization", "Bearer tok")] (Ok {[ "name" := "Acme" ]}) in
  let doc := "homeassistant:" +:+ Py.nl +:+ "  name: Home" +:+ Py.nl in
  let w := World (<[config_file := File doc]> {[ ["config"] := Dir ]}) [] in
  doc_of (w_fs (handle_set_branding o true rq w).2) = doc
  ∧ (handle_set_branding o false rq w).1 = Ok (error_response (ModuleNotFoundError "yaml")).
Proof.
  intros o rq doc w. split.
  - destruct (set_branding_existing_section o true rq {[ "name" := "Acme" ]} w
                eq_refl eq_refl eq_refl) as [-> _]. reflexivity.
  - exact (proj2 (set_branding_existing_section o false rq {[ "name" := "Acme" ]} w
                    eq_refl eq_refl eq_refl)).
Defined.

(** * Where a theme is written *)

Section ThemeFile.

Implicit Types f : fs.

Lemma length_app_str (s r : string) :
  String.length (s +:+ r) = String.length s + String.length r.
Proof. induction s as [|a s IH]; [done|]. rewrite app_String. cbn. by rewrite IH. Qed.

(** A text without the separator is one field. *)
Lemma split_from_no_sep (c : ascii) (s : string) :
  Py.contains (String c "") s = false → Py.split_from (String c "") 0 s = (s, []).
Proof.
  induction s as [|a s IH]; [done|].
  cbn [Py.contains Py.startswith Py.split_from]. rewrite !startswith_empty.
  destruct (Ascii.eqb a c); [done|]. cbn [orb]. intros H. by rewrite IH.
Qed.

(** A name without a slash, with its extension, is one path component. *)
Lemma parse_file_name (name : string) :
  Py.contains "/" name = false → Path.parse (name +:+ ".yaml") = [name +:+ ".yaml"].
Proof.
  intros Hn. unfold Path.parse, Py.split.
  rewrite split_from_no_sep by (by rewrite contains_char_app, Hn).
  rewrite filter_cons_True; [done|].
  split; intros H%(f_equal String.length); rewrite length_app_str in H; cbn in H; lia.
Qed.

Lemma file_name_not_dots (name : string) : name +:+ ".yaml" ≠ "..".
Proof. intros H%(f_equal String.length). rewrite length_app_str in H. cbn in H. lia. Qed.

Lemma append_config_eq f text f' :
  Fs.append_text f config_file text = Ok f' →
  f' = <[config_file := File (doc_of f +:+ text)]> f.
Proof.
  unfold Fs.append_text, Fs.open_write, doc_of, Fs.read_text, Fs.stat.
  rewrite !locate_config_file.
  destruct (f !! ["config"]) as [[]|] eqn:Hc; try done.
  rewrite config_file_eq in *. cbn [Fs.node_at].
  by destruct (f !! ["config"; "configuration.yaml"]) as [[|old]|]; intros [= <-].
Qed.

(** The theme step of a request changes the configuration file at most. *)
Lemma add_theme_configuration_changes w :
  w_fs (add_theme_configuration w).2 = w_fs w
  ∨ w_fs (add_theme_configuration w).2
    = <[config_file := File (doc_of (w_fs w) +:+ request_frontend_block)]> (w_fs w).
Proof.
  unfold add_theme_configuration. run.
  destruct (read_config_eq w) as (r & -> & Hr).
  destruct r as [doc|e]; [|by left].
  rewrite (Hr doc eq_refl), (contains_universal "themes:") by done.
  destruct (Py.contains "themes:" (doc_of (w_fs w))); [by left|]. cbn [negb].
  destruct (Fs.append_text (w_fs w) config_file request_frontend_block) as [f'|e] eqn:Ha;
    [|by left].
  right. cbn [snd w_fs]. by apply append_config_eq.
Qed.

(** When the step succeeds, the marker decides what it did. *)
Lemma add_theme_configuration_ok w w' :
  add_theme_configuration w = (Ok tt, w') →
  w_fs w' = if Py.contains "themes:" (doc_of (w_fs w))
            then w_fs w
            else <[config_file := File (doc_of (w_fs w) +:+ request_frontend_block)]> (w_fs w).
Proof.
  unfold add_theme_configuration. run.
  destruct (read_config_eq w) as (r & -> & Hr).
  destruct r as [doc|e]; [|done].
  rewrite (Hr doc eq_refl), (contains_universal "themes:") by done.
  destruct (Py.contains "themes:" (doc_of (w_fs w))); cbn [negb].
  - by intros [= <-].
  - destruct (Fs.append_text (w_fs w) config_file request_frontend_block) as [f'|e] eqn:Ha;
      [|done].
    intros [= <-]. cbn [w_fs]. by apply append_config_eq.
Qed.

Lemma mkdir_themes_ok f f' :
  Fs.mkdir_exist_ok f themes_dir = Ok f' →
  f' !! ["config"] = Some Dir ∧ f' !! themes_dir = Some Dir.
Proof.
  unfold Fs.mkdir_exist_ok, Fs.os_mkdir, Fs.is_dir, Fs.stat, Fs.locate.
  rewrite themes_dir_eq.
  cbn [removelast List.last Fs.walk app]. rewrite !decide_False by done. cbn [app].
  destruct (f !! ["config"]) as [[]|] eqn:Hc; try done.
  rewrite ?decide_False by done. cbn [app Fs.node_at].
  destruct (f !! ["config"; "themes"]) as [[]|] eqn:Ht; try done.
  - by intros [= <-].
  - intros [= <-]. by rewrite lookup_insert_ne, lookup_insert_eq.
Qed.

End ThemeFile.

(** X7: after a successful theme installation with a name without [/], the
    file of that name in the themes directory holds exactly the content
    given, whatever it held before. *)
Theorem theme_install_last_write_wins
    (o : options) (rq : request) (data : gmap string string)
    (w w' : world) (resp : response) :
  let name := default "controll" (data !! "name") in
  let content := default "" (data !! "content") in
  req_json rq = Ok data →
  Py.contains "/" name = false →
  handle_install_theme o rq w = (Ok resp, w') →
  status resp = 200 →
  w_fs w' !! (themes_dir ++ [name +:+ ".yaml"]) = Some (File content).
Proof.
  intros name content Hdata Hname Hrun Hst.
  unfold handle_install_theme in Hrun.
  destruct (verify_token o rq); cbn [negb] in Hrun; [|by injection Hrun as <- <-].
  unfold try_except, mbind at 1 2 3 4 5, M_bind, bind, ret, log, emit, of_result, write_text,
    mkdir, fs_update in Hrun.
  rewrite Hdata in Hrun. fold name content in Hrun.
  destruct (Fs.mkdir_exist_ok (w_fs w) themes_dir) as [f1|e] eqn:Hm;
    [|by injection Hrun as <- <-].
  cbn [w_fs w_trace] in Hrun.
  assert (Path.joinpath themes_dir (name +:+ ".yaml") = themes_dir ++ [name +:+ ".yaml"])
    as Hfile.
  { unfold Path.joinpath. rewrite parse_file_name by done.
    destruct (Py.startswith (name +:+ ".yaml") "/") eqn:Hs; [|done].
    apply startswith_iff in Hs as [r Hs].
    assert (Py.contains "/" (name +:+ ".yaml") = true) as Hc.
    { rewrite Hs. apply contains_self_app. }
    by rewrite contains_char_app, Hname in Hc. }
  rewrite Hfile in Hrun.
  set (tf := themes_dir ++ [name +:+ ".yaml"]) in *.
  assert (".." ∉ tf) as Hplain.
  { unfold tf. rewrite themes_dir_eq. cbn [app]. rewrite !not_elem_of_cons.
    split; [done|]. split; [done|]. split; [|apply not_elem_of_nil].
    intros H. by apply (file_name_not_dots name). }
  destruct (Fs.write_text f1 tf content) as [f2|e] eqn:Hw;
    [|by injection Hrun as <- <-].
  apply write_text_ok in Hw as [-> _]; [|done|by unfold tf; rewrite themes_dir_eq].
  match type of Hrun with context [add_theme_configuration ?w0] =>
    pose proof (add_theme_configuration_changes w0) as Hc;
    destruct (add_theme_configuration w0) as [[[]|e] w3] end;
    cbn [snd w_fs] in Hc; [|by injection Hrun as <- <-].
  injection Hrun as <- <-. cbn [w_fs].
  destruct Hc as [->| ->].
  - by rewrite lookup_insert_eq.
  - rewrite lookup_insert_ne; [by rewrite lookup_insert_eq|].
    unfold tf. by rewrite themes_dir_eq, config_file_eq.
Qed.

(** * A theme name that climbs out of the themes directory *)

Section ThemeEscape.

Implicit Types f : fs.

Lemma app_cancel_r (s r t : string) : s +:+ t = r +:+ t → s = r.
Proof.
  revert r. induction s as [|a s IH]; intros [|b r] H; [done|..].
  - apply (f_equal String.length) in H. rewrite app_empty_l, app_String in H.
    cbn [String.length] in H. rewrite length_app_str in H. lia.
  - apply (f_equal String.length) in H. rewrite app_empty_l, app_String in H.
    cbn [String.length] in H. rewrite length_app_str in H. lia.
  - rewrite !app_String in H. injection H as -> H. f_equal. by apply IH.
Qed.

Lemma parse_parent_name (x : string) :
  Py.contains "/" x = false →
  Path.parse (("../" +:+ x) +:+ ".yaml") = [".."; x +:+ ".yaml"].
Proof.
  intros Hx. unfold Path.parse, Py.split.
  change (("../" +:+ x) +:+ ".yaml")
    with (String "." (String "." (String "/" (x +:+ ".yaml")))).
  cbn [Py.split_from Py.startswith Ascii.eqb Bool.eqb String.length Nat.sub].
  rewrite !startswith_empty. cbn [Ascii.eqb Bool.eqb andb].
  rewrite (split_from_no_sep "/") by (by rewrite contains_char_app, Hx).
  rewrite filter_cons_True by done.
  rewrite filter_cons_True; [done|].
  split; intros H%(f_equal String.length); rewrite length_app_str in H; cbn in H; lia.
Qed.

Lemma locate_up f (leaf : string) :
  f !! ["config"] = Some Dir → f !! themes_dir = Some Dir → leaf ≠ ".." →
  Fs.locate f (themes_dir ++ [".."; leaf]) = inr ["config"; leaf].
Proof.
  rewrite themes_dir_eq. intros Hc Ht Hl. unfold Fs.locate.
  cbn [app removelast List.last Fs.walk].
  rewrite !(decide_False (P := "config" = "..")) by done.
  rewrite !(decide_False (P := "themes" = "..")) by done.
  rewrite decide_True by done. cbn [app]. rewrite Hc, Ht.
  cbn [removelast app]. by rewrite decide_False.
Qed.

Lemma doc_of_insert_config f c :
  f !! ["config"] = Some Dir → doc_of (<[config_file := File c]> f) = c.
Proof.
  intros Hc. unfold doc_of, Fs.read_text, Fs.stat.
  rewrite locate_config_file, lookup_insert_ne, Hc by done.
  rewrite config_file_eq. cbn [Fs.node_at]. by rewrite lookup_insert_eq.
Qed.

End ThemeEscape.

(** X8: a theme name that starts with [../] is not refused: after a
    successful installation the content is in a file of the configuration
    directory itself.  That file holds exactly the content, except under
    the name [../configuration], where it is [configuration.yaml] and the
    themes block follows the content when the content has no [themes:] in
    it. *)
Theorem theme_install_parent_directory
    (o : options) (rq : request) (data : gmap string string) (x : string)
    (w w' : world) (resp : response) :
  let content := default "" (data !! "content") in
  req_json rq = Ok data →
  data !! "name" = Some ("../" +:+ x) →
  Py.contains "/" x = false →
  handle_install_theme o rq w = (Ok resp, w') →
  status resp = 200 →
  w_fs w' !! (config_dir ++ [x +:+ ".yaml"])
  = Some (File (if bool_decide (x = "configuration") && negb (Py.contains "themes:" content)
                then content +:+ request_frontend_block
                else content)).
Proof.
  intros content Hdata Hname Hx Hrun Hst.
  unfold handle_install_theme in Hrun.
  destruct (verify_token o rq); cbn [negb] in Hrun; [|by injection Hrun as <- <-].
  unfold try_except, mbind at 1 2 3 4 5, M_bind, bind, ret, log, emit, of_result, write_text,
    mkdir, fs_update in Hrun.
  rewrite Hdata, Hname in Hrun. cbn [default from_option id] in Hrun. fold content in Hrun.
  destruct (Fs.mkdir_exist_ok (w_fs w) themes_dir) as [f1|e] eqn:Hm;
    [|by injection Hrun as <- <-].
  cbn [w_fs w_trace] in Hrun.
  destruct (mkdir_themes_ok _ _ Hm) as [Hc Ht].
  assert (Path.joinpath themes_dir (("../" +:+ x) +:+ ".yaml")
          = themes_dir ++ [".."; x +:+ ".yaml"]) as Hfile.
  { unfold Path.joinpath. by rewrite parse_parent_name. }
  rewrite Hfile in Hrun.
  unfold Fs.write_text, Fs.open_write in Hrun.
  rewrite (locate_up f1 (x +:+ ".yaml") Hc Ht (file_name_not_dots x)) in Hrun.
  cbn [Fs.node_at] in Hrun. rewrite config_dir_eq. cbn [app].
  set (q := ["config"; x +:+ ".yaml"]) in *.
  assert (∀ f2, f2 = <[q := File content]> f1 →
            ∀ w2 w3, w_fs w2 = f2 → add_theme_configuration w2 = (Ok tt, w3) →
            w_fs w3 !! q
            = Some (File (if bool_decide (x = "configuration")
                             && negb (Py.contains "themes:" content)
                          then content +:+ request_frontend_block
                          else content))) as Hstep.
  { intros f2 -> w2 w3 Hw2 Hok. apply add_theme_configuration_ok in Hok.
    rewrite Hok, Hw2. destruct (decide (x = "configuration")) as [->|Hne].
    - rewrite bool_decide_eq_true_2 by done. cbn [andb]. change q with config_file.
      rewrite doc_of_insert_config by done.
      destruct (Py.contains "themes:" content); cbn [negb]; by rewrite lookup_insert_eq.
    - rewrite bool_decide_eq_false_2 by done. cbn [andb].
      assert (q ≠ config_file) as Hq.
      { rewrite config_file_eq. unfold q. intros [= H]. apply Hne.
        by apply (app_cancel_r x "configuration" ".yaml"). }
      destruct (Py.contains "themes:" (doc_of (<[q:=File content]> f1)));
        rewrite ?(lookup_insert_ne _ config_file) by done; by rewrite lookup_insert_eq. }
  destruct (f1 !! q) as [[|old]|] eqn:Hq; [by injection Hrun as <- <-|..].
  all: cbn beta in Hrun; change ("" +:+ content) with content in Hrun.
  all: match type of Hrun with context [add_theme_configuration ?w0] =>
    pose proof (Hstep _ eq_refl w0) as Hch;
    destruct (add_theme_configuration w0) as [[[]|e] w3] end;
    [|by injection Hrun as <- <-].
  all: injection Hrun as <- <-; cbn [w_fs]; by apply Hch.
Qed.

Lemma theme_install_parent_directory_witness :
  let o := Options (Some "tok") None None in
  let w := World (<[config_file := File "default_config:"]> {[ ["config"] := Dir ]}) [] in
  let rq := theme_request "../configuration" "x" in
  let r := handle_install_theme o rq w in
  status (default unauthorized (match r.1 with Ok resp => Some resp | Raise _ => None end))
  = 200
  ∧ w_fs r.2 !! config_file = Some (File ("x" +:+ request_frontend_block)).
Proof.
  intros o w rq r.
  destruct r as [[resp|e] w'] eqn:Hr; [|discriminate Hr].
  assert (status resp = 200) as Hs by (by injection Hr as <- <-).
  split; [exact Hs|].
  exact (theme_install_parent_directory o rq
           (<["name" := "../configuration"]> (<["content" := "x"]> ∅))
           "configuration" w w' resp eq_refl eq_refl eq_refl Hr Hs).
Defined.

(** * The heartbeat loop *)

Section Loop.

Variable o : options.
Variable sup : string.
Variable net : http_env.

Lemma sleeps_app evs1 evs2 : sleeps (evs1 ++ evs2) = sleeps evs1 ++ sleeps evs2.
Proof. unfold sleeps. apply omap_app. Qed.

Lemma heartbeat_cycle_skip w :
  HUB_TOKEN o = "" →
  heartbeat_cycle o sup net w
  = (Ok tt, World (w_fs w)
              (w_trace w ++ [ EvLog WARNING "No hub token configured, skipping heartbeat";
                              EvSleep (HEARTBEAT_INTERVAL o) ])).
Proof.
  intros Ht. unfold heartbeat_cycle, try_except, sleep.
  rewrite bool_decide_eq_true_2 by done. run.
  cbn [w_fs w_trace]. by rewrite <- app_assoc.
Qed.

(** One turn: it returns, keeps the files, and sleeps once, at its end. *)
Lemma heartbeat_cycle_shape w :
  ∃ evs, heartbeat_cycle o sup net w = (Ok tt, World (w_fs w) (w_trace w ++ evs))
         ∧ sleeps evs = [HEARTBEAT_INTERVAL o]
         ∧ (HUB_TOKEN o = "" → forallb (λ e, negb (is_http e)) evs = true).
Proof.
  destruct (decide (HUB_TOKEN o = "")) as [Ht|Ht].
  - eexists. split; [by apply heartbeat_cycle_skip|]. done.
  - destruct (device_id_total o) as [d Hd].
    destruct (fetch_ha_version_run sup net) as [rv Hv].
    destruct (fetch_entities_count_run sup net) as [rc Hc].
    unfold heartbeat_cycle, try_except.
    rewrite bool_decide_eq_false_2 by done.
    unfold mbind at 1 2 3 4, M_bind, bind.
    rewrite (collect_run _ _ _ _ _ _ (Hv w)), (collect_run _ _ _ _ _ _ (Hc _)).
    unfold post_heartbeat, heartbeat_payload, try_except, session_post, sleep. rewrite Hd. run.
    cbn [w_fs w_trace].
    match goal with |- context [http_post_status net ?u ?p] =>
      destruct (http_post_status net u p) as [st|e] end.
    + destruct (bool_decide (st = 200)); cbn [w_fs w_trace]; rewrite <- !app_assoc;
        (eexists; split; [reflexivity|]; by split).
    + cbn [w_fs w_trace]. rewrite <- !app_assoc.
      eexists. split; [reflexivity|]. by split.
Qed.

End Loop.

Lemma send_heartbeat_run
    (o : options) (sup : string) (net : http_env) (n : nat) (w : world) :
  ∃ evs, send_heartbeat o sup net n w = (Ok tt, World (w_fs w) (w_trace w ++ evs))
         ∧ sleeps evs = replicate n (HEARTBEAT_INTERVAL o).
Proof.
  revert w. induction n as [|n IH]; intros w.
  - exists []. split; [|done]. rewrite app_nil_r. by destruct w.
  - destruct (heartbeat_cycle_shape o sup net w) as (evs1 & H1 & Hs1 & _).
    cbn [send_heartbeat]. unfold mbind, M_bind, bind. rewrite H1.
    destruct (IH (World (w_fs w) (w_trace w ++ evs1))) as (evs2 & H2 & Hs2).
    rewrite H2. cbn [w_fs w_trace]. exists (evs1 ++ evs2).
    split; [by rewrite app_assoc|]. by rewrite sleeps_app, Hs1, Hs2.
Qed.

(** X13: [n] turns of the heartbeat loop never raise, leave the files alone
    and sleep exactly [n] times, each time for the configured interval,
    whatever the fetches and the post did. *)
Theorem send_heartbeat_steady
    (o : options) (sup : string) (net : http_env) (n : nat) (w : world) :
  ∃ evs, send_heartbeat o sup net n w = (Ok tt, World (w_fs w) (w_trace w ++ evs))
         ∧ sleeps evs = replicate n (HEARTBEAT_INTERVAL o).
Proof. apply send_heartbeat_run. Qed.

(** X14: without a hub token the heartbeat loop makes no HTTP request at
    all. *)
Theorem send_heartbeat_silent_without_token
    (o : options) (sup : string) (net : http_env) (n : nat) (w : world) :
  HUB_TOKEN o = "" →
  forallb (λ e, negb (is_http e)) (events_of (send_heartbeat o sup net n) w) = true.
Proof.
  intros Ht. revert w. induction n as [|n IH]; intros w.
  - unfold events_of. cbn. by rewrite drop_all.
  - destruct (heartbeat_cycle_shape o sup net w) as (evs1 & H1 & _ & Hq1).
    destruct (send_heartbeat_run o sup net n (World (w_fs w) (w_trace w ++ evs1)))
      as (evs2 & H2 & _).
    specialize (IH (World (w_fs w) (w_trace w ++ evs1))).
    rewrite (events_of_app _ _ evs2) in IH by (by rewrite H2).
    rewrite (events_of_app _ _ (evs1 ++ evs2)).
    + rewrite forallb_app, (Hq1 Ht), IH. done.
    + cbn [send_heartbeat]. unfold mbind, M_bind, bind. rewrite H1, H2.
      cbn [snd w_trace]. by rewrite app_assoc.
Qed.

(** * The forwarding handlers *)

Section Forwarders.

Variable o : options.
Variable sup : string.
Variable net : http_env.
Variable more : http_more.

Lemma session_post_plain_run url w :
  session_post_plain sup more url w
  = (http_post more url,
     World (w_fs w) (w_trace w ++ [EvHttp "POST" url (get_supervisor_headers sup) None])).
Proof. unfold session_post_plain. run. by destruct (http_post more url). Qed.

Lemma session_post_json_run url payload w :
  session_post_json sup more url payload w
  = (http_post_json more url payload,
     World (w_fs w)
       (w_trace w ++ [EvHttp "POST" url (get_supervisor_headers sup) (Some payload)])).
Proof. unfold session_post_json. run. by destruct (http_post_json more url payload). Qed.

Lemma info_part_run url w :
  info_part sup net url w
  = (match http_get_json net url with
     | Ok answer => py_get answer "data" (JDict [])
     | Raise e => Raise e
     end,
     World (w_fs w) (w_trace w ++ [get_event sup url])).
Proof.
  unfold info_part. run. rewrite session_get_json_run.
  destruct (http_get_json net url) as [answer|e]; [|done].
  by destruct (py_get answer "data" (JDict [])).
Qed.

End Forwarders.

(** X15: the add-on installation handler answers success only for status
    200 from the Supervisor; any other status is passed on as the status of
    the answer, with the Supervisor's text as the error. *)
Theorem addon_install_passes_status
    (o : options) (sup : string) (more : http_more)
    (rq : request) (data : gmap string string) (st : nat) (text : string) (w : world) :
  verify_token o rq = true →
  req_json rq = Ok data →
  http_post more (SUPERVISOR_API +:+ "/addons/" +:+ fmt (data !! "slug") +:+ "/install")
  = Ok (st, Ok text) →
  (handle_addon_install o sup more rq w).1
  = Ok (if bool_decide (st = 200)
        then json_response
               [ ("success", JBool true);
                 ("message", JStr ("Installing " +:+ fmt (data !! "slug"))) ] 200
        else json_response [("error", JStr text)] st).
Proof.
  intros Hv Hd Hp. unfold handle_addon_install, try_except. rewrite Hv. cbn [negb].
  unfold mbind at 1 2, M_bind, bind, of_result. rewrite Hd.
  rewrite session_post_plain_run, Hp. cbn [fst snd].
  by destruct (bool_decide (st = 200)).
Qed.

Lemma addon_install_passes_status_witness :
  let o := Options (Some "tok") None None in
  let rq := Request [("Authorization", "Bearer tok")] (Ok ∅) in
  let more := HttpMore (λ _ _, Ok JNull)
                (λ url, if String.eqb url "http://supervisor/addons/None/install"
                        then Ok (404, Ok "Addon None does not exist")
                        else Raise (ClientError "no route")) in
  (handle_addon_install o "t" more rq (World ∅ [])).1
  = Ok (json_response [("error", JStr "Addon None does not exist")] 404).
Proof.
  intros o rq more.
  exact (addon_install_passes_status o "t" more rq ∅ 404 "Addon None does not exist"
           (World ∅ []) eq_refl eq_refl eq_refl).
Defined.

(** X16: if any of the three Supervisor fetches of the system information
    handler raises, the answer is the error response of an exception: its
    status is 500 and its body has the key [error] alone, so no part of the
    information that was fetched is in it. *)
Theorem system_info_all_or_nothing
    (o : options) (sup : string) (net : http_env) (rq : request) (w : world) :
  verify_token o rq = true →
  (∃ url e, url ∈ [ SUPERVISOR_API +:+ "/host/info"; SUPERVISOR_API +:+ "/core/info";
                    SUPERVISOR_API +:+ "/supervisor/info" ]
            ∧ http_get_json net url = Raise e) →
  ∃ e', (handle_system_info o sup net rq w).1 = Ok (error_response e')
        ∧ status (error_response e') = 500
        ∧ body (error_response e') = JDict [("error", JStr (exn_str e'))].
Proof.
  intros Hv (url & e & Hin & He).
  unfold handle_system_info, try_except. rewrite Hv. cbn [negb].
  unfold mbind, M_bind, bind.
  rewrite info_part_run.
  destruct (http_get_json net (SUPERVISOR_API +:+ "/host/info")) as [a1|e1] eqn:H1.
  2: { by exists e1. }
  destruct (py_get a1 "data" (JDict [])) as [host|e1]; [|by exists e1].
  rewrite info_part_run.
  destruct (http_get_json net (SUPERVISOR_API +:+ "/core/info")) as [a2|e2] eqn:H2.
  2: { by exists e2. }
  destruct (py_get a2 "data" (JDict [])) as [core|e2]; [|by exists e2].
  rewrite info_part_run.
  destruct (http_get_json net (SUPERVISOR_API +:+ "/supervisor/info")) as [a3|e3] eqn:H3.
  2: { by exists e3. }
  exfalso.
  repeat (apply elem_of_cons in Hin as [->|Hin]; [congruence|]).
  by apply elem_of_nil in Hin.
Qed.

Lemma system_info_all_or_nothing_witness :
  let o := Options (Some "tok") None None in
  let rq := Request [("Authorization", "Bearer tok")] (Ok ∅) in
  let net := HttpEnv (λ url, if String.eqb url "http://supervisor/core/info"
                             then Raise (ClientError "timeout")
                             else Ok (JDict [("data", JDict [("hostname", JStr "ha")])]))
                     (λ _ _, Ok 200) in
  verify_token o rq = true
  ∧ ∃ e', (handle_system_info o "t" net rq (World ∅ [])).1 = Ok (error_response e').
Proof.
  intros o rq net.
  assert (verify_token o rq = true) as Hv by reflexivity.
  split; [exact Hv|].
  destruct (system_info_all_or_nothing o "t" net rq (World ∅ []) Hv) as (e' & H1 & _).
  - exists "http://supervisor/core/info", (ClientError "timeout").
    split; [|reflexivity]. rewrite !elem_of_cons; auto.
  - by exists e'.
Defined.

(** X17: a service call is forwarded without its names being checked.  For
    a body that is an object, whatever its values are, the handler posts to
    the URL made of [str] of the [domain] and [service] values, [None] for
    a missing one, and sends the [data] value as it is, an empty object for
    a missing one.  A body that is not an object is answered with the
    failure of its [get], and nothing is posted. *)
Theorem ha_service_unchecked_names
    (o : options) (sup : string) (more : http_more)
    (rq : request) (kv : list (string * json)) (v : json) (w : world) :
  verify_token o rq = true →
  EvHttp "POST"
    (HA_API +:+ "/services/" +:+ json_str (default JNull (dict_get kv "domain"))
     +:+ "/" +:+ json_str (default JNull (dict_get kv "service")))
    (get_supervisor_headers sup)
    (Some (default (JDict []) (dict_get kv "data")))
  ∈ events_of (handle_ha_service o sup more rq (Ok (JDict kv))) w
  ∧ json_str JNull = "None"
  ∧ ((∀ kv', v ≠ JDict kv') →
     (handle_ha_service o sup more rq (Ok v) w).1
     = Ok (error_response
             (AttributeError ("'" +:+ type_name v +:+ "' object has no attribute 'get'")))
     ∧ ∀ e, e ∈ events_of (handle_ha_service o sup more rq (Ok v)) w → is_http e = false).
Proof.
  intros Hv. split; [|split; [done|]].
  - unfold events_of, handle_ha_service, try_except. rewrite Hv. cbn [negb].
    unfold mbind at 1 2 3 4 5, M_bind, bind, of_result. cbn [py_get].
    rewrite session_post_json_run.
    match goal with |- context [http_post_json more ?u ?p] =>
      destruct (http_post_json more u p) as [res|e] end.
    + cbn [snd w_trace ret]. rewrite drop_app_length. by apply list_elem_of_singleton.
    + run. cbn [snd w_trace]. rewrite <- app_assoc, drop_app_length.
      cbn [app]. rewrite elem_of_cons; auto.
  - intros Hno.
    unfold events_of, handle_ha_service, try_except. rewrite Hv. cbn [negb].
    unfold mbind at 1 2, M_bind, bind, of_result.
    destruct v as [| | | | |kv']; try (by destruct (Hno kv')).
    all: run; cbn [py_get fst snd w_trace w_fs]; split; [done|].
    all: rewrite drop_app_length; intros e ->%list_elem_of_singleton; done.
Qed.

(** * The changed flag of start-up *)

Section Changed.

Implicit Types doc : string.

Lemma chars_length s : length (Py.chars s) = String.length s.
Proof. induction s as [|a s IH]; [done|]. unfold Py.chars in *. cbn. by rewrite IH. Qed.

End Changed.

Lemma reconcile_flag_iff (doc : string) :
  (reconcile doc).2 = true ↔ (reconcile doc).1 ≠ doc.
Proof.
  unfold reconcile.
  pose proof (add_controll_name_cases doc) as Hn.
  destruct (add_controll_name doc) as [wn named].
  pose proof (add_themes_config_flag wn) as Hf.
  pose proof (add_themes_config_unflagged wn) as Hu.
  pose proof (add_themes_config_marker wn) as Hm.
  pose proof (add_themes_config_sublist wn) as Hs.
  destruct (add_themes_config wn) as [wt themed]. cbn [fst snd] in *.
  destruct Hn as [[= -> ->]|[= -> ->]]; cbn [orb].
  - destruct themed.
    + split; [|done]. intros _ ->. rewrite Hm in Hf. done.
    + split; [done|]. intros H. by destruct H; apply Hu.
  - split; [|done]. intros _ ->.
    apply sublist_length in Hs. rewrite !chars_length, length_app_str in Hs.
    assert (0 < String.length startup_name_block) by (vm_compute; lia). lia.
Qed.

(** X11: the [changed] flag of start-up is true exactly when the text it
    arrives at differs from the text it read. *)
Theorem reconcile_flag_exact (doc : string) :
  (reconcile doc).2 = true ↔ (reconcile doc).1 ≠ doc.
Proof. apply reconcile_flag_iff. Qed.

(** * Markers under the substitution at [frontend:] *)

Section Markers.

Implicit Types s p q u v old m x : string.

Lemma suffixes_app u v : v ∈ suffixes (u +:+ v).
Proof.
  induction u as [|a u IH].
  - rewrite app_empty_l. destruct v; apply list_elem_of_here.
  - rewrite app_String. cbn [suffixes]. by apply list_elem_of_further.
Qed.

Lemma keeps_marker_inside old m u v :
  keeps_marker old m = true → m = u +:+ v → Py.startswith v old = true → v = old.
Proof.
  intros [H _]%andb_true_iff -> Hs.
  rewrite forallb_forall in H. specialize (H v).
  rewrite Hs in H. apply String.eqb_eq, H, list_elem_of_In, suffixes_app.
Qed.

Lemma keeps_marker_overlap old m a b :
  keeps_marker old m = true → old = a +:+ b → a ≠ "" → b ≠ "" →
  Py.startswith m b = true → b = m.
Proof.
  intros [_ H]%andb_true_iff -> Ha Hb Hs.
  destruct a as [|c a]; [done|]. rewrite app_String in H.
  rewrite forallb_forall in H. specialize (H b).
  rewrite Hs in H. apply String.eqb_neq in Hb. rewrite Hb in H.
  apply String.eqb_eq, H, list_elem_of_In, suffixes_app.
Qed.

(** Two beginnings of one text: one begins the other. *)
Lemma startswith_comparable s a b :
  Py.startswith s a = true → Py.startswith s b = true →
  Py.startswith a b = true ∨ Py.startswith b a = true.
Proof.
  revert a b.
  induction s as [|c s IH]; intros [|x a] [|y b]; cbn [Py.startswith]; auto; try done.
  destruct (Ascii.eqb c x) eqn:Hx; [|done].
  destruct (Ascii.eqb c y) eqn:Hy; [|done].
  apply Ascii.eqb_eq in Hx as <-. apply Ascii.eqb_eq in Hy as <-.
  rewrite Ascii.eqb_refl. apply IH.
Qed.

Lemma replace_from_at old x r :
  old ≠ "" →
  Py.replace_from old (old +:+ x) 0 (old +:+ r)
  = (old +:+ x) +:+ Py.replace_from old (old +:+ x) 0 r.
Proof.
  intros Hold. destruct old as [|b old]; [done|].
  rewrite (app_String b old r).
  rewrite replace_from_hit by apply (startswith_app (String b old)).
  cbn [String.length]. replace (S (String.length old) - 1) with (String.length old) by lia.
  by rewrite slice_from_app.
Qed.

(** Replacing from the start of a marker's end leaves that end in front. *)
Lemma replace_from_head old m x :
  old ≠ "" → keeps_marker old m = true →
  ∀ v u q, m = u +:+ v →
    Py.startswith (Py.replace_from old (old +:+ x) 0 (v +:+ q)) v = true.
Proof.
  intros Hold Hk. induction v as [|c v IH]; intros u q Hm; [apply startswith_empty|].
  destruct (Py.startswith (String c v +:+ q) old) eqn:Hs.
  - pose proof (startswith_split _ _ Hs) as Heq.
    destruct (startswith_comparable _ _ _ Hs (startswith_app (String c v) q)) as [Hc|Hc].
    + (* the marker's end begins [old] *)
      apply startswith_iff in Hc as [t Ht].
      rewrite Heq, replace_from_at by done. rewrite Ht at 1.
      rewrite !app_assoc_str. apply startswith_app.
    + (* [old] begins the marker's end, so is all of it *)
      pose proof (keeps_marker_inside _ _ _ _ Hk Hm Hc) as Hv.
      rewrite Hv, replace_from_at by done.
      rewrite app_assoc_str. apply startswith_app.
  - rewrite app_String in *. rewrite replace_from_miss by done.
    cbn [Py.startswith]. rewrite Ascii.eqb_refl.
    apply (IH (u +:+ String c "")). by rewrite Hm, app_assoc_str.
Qed.

Lemma replace_from_keeps old m x :
  old ≠ "" → keeps_marker old m = true →
  ∀ n p q, String.length p = n →
    Py.contains m (Py.replace_from old (old +:+ x) 0 (p +:+ m +:+ q)) = true.
Proof.
  intros Hold Hk n. induction n as [n IH] using lt_wf_ind. intros p q Hn.
  destruct p as [|c p].
  - rewrite app_empty_l. apply contains_startswith.
    by apply (replace_from_head old m x Hold Hk m "" q).
  - destruct (Py.startswith (String c p +:+ m +:+ q) old) eqn:Hs.
    + pose proof (startswith_split _ _ Hs) as Heq.
      set (r := Py.slice_from (String.length old) (String c p +:+ m +:+ q)) in *.
      rewrite Heq, replace_from_at by done.
      destruct (startswith_comparable _ _ _ Hs (startswith_app (String c p) (m +:+ q)))
        as [Hc|Hc].
      * (* what precedes the marker begins [old] *)
        apply startswith_iff in Hc as [w Hw].
        destruct w as [|d w].
        { (* [old] is what precedes the marker *)
          rewrite app_empty_r in Hw. rewrite Hw in Heq.
          apply String.app_inj in Heq. rewrite <- Heq.
          apply contains_app_r.
          apply contains_startswith.
          by apply (replace_from_head old m x Hold Hk m "" q). }
        rewrite Hw, app_assoc_str in Heq. apply String.app_inj in Heq.
        destruct (startswith_comparable (String d w +:+ r) (String d w) m) as [Hd|Hd].
        { apply startswith_app. }
        { rewrite <- Heq. apply startswith_app. }
        -- (* the marker begins the rest of [old] *)
           apply startswith_iff in Hd as [t Ht].
           rewrite Hw, Ht. apply contains_app_l, contains_app_l.
           apply contains_app_r. apply contains_self_app.
        -- (* the rest of [old] begins the marker, so is the marker *)
           pose proof (keeps_marker_overlap _ _ _ _ Hk Hw ltac:(done) ltac:(done) Hd) as Hm.
           rewrite Hw, Hm. apply contains_app_l, contains_app_l.
           apply contains_app_r. rewrite <- (app_empty_r m) at 2. apply contains_self_app.
      * (* [old] begins what precedes the marker *)
        apply startswith_iff in Hc as [p' Hp].
        rewrite Hp, app_assoc_str in Heq. apply String.app_inj in Heq.
        rewrite <- Heq. apply contains_app_r.
        apply (IH (String.length p')); [|done].
        rewrite <- Hn, Hp, length_app_str. destruct old; [done|]. cbn. lia.
    + rewrite app_String in *. rewrite replace_from_miss by done.
      apply contains_cons. apply (IH (String.length p)); [|done].
      rewrite <- Hn. cbn. lia.
Qed.

(** A marker kept by [old] is still there after [old] is replaced by [old]
    followed by more text. *)
Lemma replace_keeps_marker s old x m :
  old ≠ "" → keeps_marker old m = true →
  Py.contains m s = true → Py.contains m (Py.replace s old (old +:+ x)) = true.
Proof.
  intros Hold Hk (p & q & ->)%contains_iff.
  destruct old as [|b old]; [done|]. unfold Py.replace.
  by apply (replace_from_keeps (String b old) m x Hold Hk (String.length p)).
Qed.

End Markers.

(** * Start-up a second time *)

Section Again.

Implicit Types doc m : string.
Implicit Types f : fs.

Lemma name_markers_kept m : m ∈ name_markers → keeps_marker "frontend:" m = true.
Proof.
  unfold name_markers. intros H.
  repeat (apply elem_of_cons in H as [->|H]; [reflexivity|]).
  by apply elem_of_nil in H.
Qed.

Lemma add_themes_config_keeps m doc :
  keeps_marker "frontend:" m = true →
  Py.contains m doc = true → Py.contains m (add_themes_config doc).1 = true.
Proof.
  intros Hk Hm. unfold add_themes_config.
  destruct (Py.contains "themes:" doc); [done|].
  destruct (Py.contains "frontend:" doc); cbn [negb fst].
  - by apply (replace_keeps_marker doc "frontend:" (Py.nl +:+ THEMES_LINE) m).
  - by apply contains_app_l.
Qed.

(** After the naming step one of the markers is there. *)
Lemma add_controll_name_settled doc :
  ∃ m, m ∈ name_markers ∧ Py.contains m (add_controll_name doc).1 = true.
Proof.
  unfold add_controll_name, name_markers.
  destruct (Py.contains "name: Controll" doc) eqn:H1.
  { exists "name: Controll". split; [apply list_elem_of_here|done]. }
  destruct (Py.contains ("name: " +:+ Py.dq +:+ "Controll" +:+ Py.dq) doc) eqn:H2.
  { eexists. split; [apply list_elem_of_further, list_elem_of_here|done]. }
  destruct (Py.contains "homeassistant:" doc) eqn:H3; cbn [negb andb fst].
  { eexists. split; [do 2 apply list_elem_of_further; apply list_elem_of_here|done]. }
  exists "name: Controll". split; [apply list_elem_of_here|].
  by apply contains_app_r.
Qed.

Lemma add_controll_name_noop doc m :
  m ∈ name_markers → Py.contains m doc = true → add_controll_name doc = (doc, false).
Proof.
  unfold name_markers, add_controll_name. intros H Hm.
  repeat (apply elem_of_cons in H as [->|H];
          [rewrite Hm; cbn [negb]; rewrite ?andb_false_r; by repeat case_match|]).
  by apply elem_of_nil in H.
Qed.

End Again.

Lemma reconcile_fixed (doc : string) :
  reconcile (reconcile doc).1 = ((reconcile doc).1, false).
Proof.
  unfold reconcile at 2 3.
  destruct (add_controll_name_settled doc) as (m & Hin & Hm).
  destruct (add_controll_name doc) as [d1 named]. cbn [fst] in Hm.
  pose proof (add_themes_config_keeps m d1 (name_markers_kept m Hin) Hm) as Hm2.
  pose proof (add_themes_config_marker d1) as Ht.
  destruct (add_themes_config d1) as [d2 themed]. cbn [fst] in *.
  unfold reconcile.
  rewrite (add_controll_name_noop d2 m Hin Hm2).
  by rewrite (add_themes_config_done d2 Ht).
Qed.

(** X10: for every document, the two start-up steps applied to their own
    result return it unchanged and report no change. *)
Theorem reconcile_idempotent (doc : string) :
  reconcile (reconcile doc).1 = ((reconcile doc).1, false).
Proof. apply reconcile_fixed. Qed.

Section Twice.

Implicit Types f : fs.

Lemma mkdir_themes_again f :
  f !! ["config"] = Some Dir → f !! themes_dir = Some Dir →
  Fs.mkdir_exist_ok f themes_dir = Ok f.
Proof.
  rewrite themes_dir_eq. intros Hc Ht.
  unfold Fs.mkdir_exist_ok, Fs.os_mkdir, Fs.is_dir, Fs.stat, Fs.locate.
  cbn [removelast List.last Fs.walk app]. rewrite !decide_False by done. cbn [app].
  rewrite Hc. rewrite ?decide_False by done. cbn [app Fs.node_at]. by rewrite Ht.
Qed.

Lemma locate_theme_file f :
  f !! ["config"] = Some Dir → f !! themes_dir = Some Dir →
  Fs.locate f theme_file = inr theme_file.
Proof.
  rewrite themes_dir_eq, theme_file_eq. intros Hc Ht. unfold Fs.locate.
  cbn [removelast List.last Fs.walk app]. rewrite !decide_False by done. cbn [app].
  rewrite Hc. cbn [app]. rewrite Ht. by rewrite decide_False.
Qed.

Lemma write_theme_again f text :
  f !! ["config"] = Some Dir → f !! themes_dir = Some Dir →
  f !! theme_file = Some (File text) →
  Fs.write_text f theme_file text = Ok f.
Proof.
  intros Hc Ht Hf. unfold Fs.write_text, Fs.open_write.
  rewrite locate_theme_file by done.
  rewrite theme_file_eq in *. cbn [Fs.node_at]. rewrite Hf.
  change ("" +:+ text) with text. by rewrite insert_id.
Qed.

Lemma read_config_file w :
  w_fs w !! ["config"] = Some Dir → w_fs w !! config_file ≠ Some Dir →
  read_config w = (Ok (universal_newlines (doc_of (w_fs w))), w).
Proof.
  intros Hc Hn.
  unfold read_config, read_text_universal, mbind, M_bind, bind, path_exists, fs_query,
    read_text, ret, doc_of.
  unfold Fs.exists_, Fs.read_text, Fs.stat. rewrite locate_config_file, Hc.
  rewrite config_file_eq in *. cbn [Fs.node_at].
  destruct (w_fs w !! ["config"; "configuration.yaml"]) as [[|c]|] eqn:Hf; try done;
    cbn [w_fs]; rewrite ?locate_config_file, ?Hc, ?config_file_eq; cbn [Fs.node_at];
    by rewrite ?Hf.
Qed.

Lemma read_config_ok_file w doc :
  (read_config w).1 = Ok doc → w_fs w !! ["config"] = Some Dir →
  w_fs w !! config_file ≠ Some Dir.
Proof.
  intros Hr Hc Hd. revert Hr.
  unfold read_config, read_text_universal, mbind, M_bind, bind, path_exists, fs_query,
    read_text, ret.
  unfold Fs.exists_, Fs.read_text, Fs.stat. rewrite locate_config_file, Hc.
  rewrite config_file_eq in *. cbn [Fs.node_at]. rewrite Hd.
  cbn [w_fs]. rewrite ?locate_config_file, ?Hc, ?config_file_eq. cbn [Fs.node_at].
  by rewrite Hd.
Qed.

(** Where a successful start-up leaves the files. *)
Lemma install_ok_state w w1 :
  install_controll_branding w = (Ok tt, w1) →
  w_fs w1 !! ["config"] = Some Dir
  ∧ w_fs w1 !! themes_dir = Some Dir
  ∧ w_fs w1 !! theme_file = Some (File CONTROLL_THEME)
  ∧ w_fs w1 !! config_file ≠ Some Dir
  ∧ reconcile (universal_newlines (doc_of (w_fs w1)))
    = (universal_newlines (doc_of (w_fs w1)), false).
Proof.
  unfold install_controll_branding. run. cbn [w_fs w_trace].
  destruct (Fs.mkdir_exist_ok (w_fs w) themes_dir) as [fm|e] eqn:Hm; [|done].
  cbn [w_fs w_trace].
  destruct (mkdir_themes_ok _ _ Hm) as [Hc Ht].
  destruct (Fs.write_text fm theme_file CONTROLL_THEME) as [ft|e] eqn:Hw; [|done].
  apply write_text_ok in Hw as [-> _];
    [|rewrite theme_file_eq; plain_path|by rewrite theme_file_eq].
  cbn [w_fs w_trace].
  set (ft := <[theme_file := File CONTROLL_THEME]> fm).
  assert (ft !! ["config"] = Some Dir) as Hc' by (by unfold ft; rewrite lookup_insert_ne).
  assert (ft !! themes_dir = Some Dir) as Ht'.
  { unfold ft. rewrite lookup_insert_ne; [done|]. by rewrite theme_file_eq, themes_dir_eq. }
  assert (ft !! theme_file = Some (File CONTROLL_THEME)) as Hf'
    by (by unfold ft; rewrite lookup_insert_eq).
  match goal with |- context [read_config ?w0] =>
    destruct (read_config_eq w0) as (r & Hreq & Hr);
    pose proof (read_config_ok_file w0) as Hnd; rewrite Hreq in *
  end.
  destruct r as [d|e]; [|done].
  specialize (Hr d eq_refl). specialize (Hnd d eq_refl Hc'). cbn [w_fs] in Hr, Hnd.
  pose proof (reconcile_fixed d) as Hidem.
  pose proof (reconcile_flag_iff d) as Hflag.
  assert (universal_newlines (reconcile d).1 = (reconcile d).1) as Hplain.
  { apply universal_newlines_plain, reconcile_no_cr. rewrite Hr.
    apply universal_newlines_no_cr. }
  assert (∀ wt ch, reconcile d = (wt, ch) →
            (ch = false → reconcile (universal_newlines (doc_of ft))
                          = (universal_newlines (doc_of ft), false))
            ∧ (ch = true → ∀ fc, fc = <[config_file := File wt]> ft →
                 fc !! ["config"] = Some Dir ∧ fc !! themes_dir = Some Dir
                 ∧ fc !! theme_file = Some (File CONTROLL_THEME)
                 ∧ fc !! config_file ≠ Some Dir
                 ∧ reconcile (universal_newlines (doc_of fc))
                   = (universal_newlines (doc_of fc), false))) as Hcases.
  { intros wt ch Hrec. rewrite Hrec in Hidem, Hflag, Hplain. cbn [fst snd] in *. split.
    - intros ->. rewrite <- Hr.
      destruct (decide (wt = d)) as [->|Hne]; [done|]. by apply Hflag in Hne.
    - intros -> fc ->.
      rewrite !lookup_insert_ne by (by rewrite config_file_eq, ?themes_dir_eq, ?theme_file_eq).
      rewrite lookup_insert_eq, doc_of_insert_config, Hplain by done. by repeat split. }
  unfold reconcile in Hcases.
  destruct (add_controll_name d) as [wn named].
  destruct (add_themes_config wn) as [wt themed].
  specialize (Hcases wt (named || themed) eq_refl) as [Hsame Hnew].
  destruct named, themed; cbn [orb fst snd w_fs w_trace ret] in *.
  4: { intros [= <-]. cbn [w_fs]. by repeat split; try apply Hsame. }
  all: destruct (Fs.write_text ft config_file wt) as [fc|e] eqn:Hwc; [|done].
  all: apply write_text_ok in Hwc as [Hfc _];
         [|rewrite config_file_eq; plain_path|by rewrite config_file_eq].
  all: intros [= <-]; cbn [w_fs]; by apply (Hnew eq_refl).
Qed.

End Twice.

(** X12: after a successful start-up, a second start-up succeeds and leaves
    every file as it is. *)
Theorem startup_twice (w w1 : world) :
  install_controll_branding w = (Ok tt, w1) →
  (install_controll_branding w1).1 = Ok tt
  ∧ w_fs (install_controll_branding w1).2 = w_fs w1.
Proof.
  intros (Hc & Ht & Hf & Hnd & Hrec)%install_ok_state.
  unfold install_controll_branding. run. cbn [w_fs w_trace].
  rewrite (mkdir_themes_again _ Hc Ht). cbn [w_fs w_trace].
  rewrite (write_theme_again _ _ Hc Ht Hf). cbn [w_fs w_trace].
  match goal with |- context [read_config ?w0] =>
    rewrite (read_config_file w0) by done end.
  cbn [w_fs]. unfold reconcile in Hrec.
  destruct (add_controll_name (universal_newlines (doc_of (w_fs w1)))) as [wn named].
  destruct (add_themes_config wn) as [wt themed].
  injection Hrec as -> Hch. apply orb_false_iff in Hch as [-> ->].
  done.
Qed.

Lemma startup_twice_witness :
  let w := World {[ ["config"] := Dir ]} [] in
  let w1 := (install_controll_branding w).2 in
  install_controll_branding w = (Ok tt, w1)
  ∧ w_fs (install_controll_branding w1).2 = w_fs w1.
Proof.
  intros w w1.
  assert (install_controll_branding w = (Ok tt, w1)) as H by reflexivity.
  split; [exact H|]. exact (proj2 (startup_twice w w1 H)).
Defined.

(** X19: a successful start-up leaves the themes directory in place and
    [controll.yaml] holding the vendor theme, whatever that file held
    before. *)
Theorem startup_installs_theme (w w1 : world) :
  install_controll_branding w = (Ok tt, w1) →
  w_fs w1 !! themes_dir = Some Dir
  ∧ w_fs w1 !! theme_file = Some (File CONTROLL_THEME).
Proof. intros (_ & Ht & Hf & _)%install_ok_state. done. Qed.

Lemma startup_installs_theme_witness :
  let w := World (<[theme_file := File "mine"]>
                    (<[themes_dir := Dir]> {[ ["config"] := Dir ]})) [] in
  let w1 := (install_controll_branding w).2 in
  install_controll_branding w = (Ok tt, w1)
  ∧ w_fs w1 !! theme_file = Some (File CONTROLL_THEME).
Proof.
  intros w w1.
  assert (install_controll_branding w = (Ok tt, w1)) as H by reflexivity.
  split; [exact H|]. exact (proj2 (startup_installs_theme w w1 H)).
Defined.

(** X18: the start of [main] never raises: when the branding installation
    raises, the failure is logged and the platform URL and the heartbeat
    interval are logged all the same. *)
Theorem main_startup_goes_on (o : options) (w : world) :
  ∃ f evs,
    main_startup o w
    = (Ok tt,
       World f (w_trace w ++ evs ++
                [ EvLog INFO ("Platform URL: " +:+ PLATFORM_URL o);
                  EvLog INFO ("Heartbeat interval: " +:+ pretty (HEARTBEAT_INTERVAL o)
                              +:+ "s") ]))
    ∧ ∀ e, (install_controll_branding
              (World (w_fs w)
                 (w_trace w ++ [EvLog INFO "Starting Controll Supervisor Add-on"]))).1
           = Raise e →
           EvLog ERROR ("Failed to install branding: " +:+ exn_str e) ∈ evs.
Proof.
  unfold main_startup, try_except. run. cbn [w_fs w_trace].
  set (w0 := World (w_fs w) (w_trace w ++ [EvLog INFO "Starting Controll Supervisor Add-on"])).
  destruct (install_run w0) as (evs & Htr & _).
  destruct (install_controll_branding w0) as [[[]|e] w1]; cbn [snd fst] in *.
  - exists (w_fs w1), ([EvLog INFO "Starting Controll Supervisor Add-on"] ++ evs).
    split; [|done]. cbn [w_fs w_trace]. rewrite Htr. unfold w0. cbn [w_trace].
    by rewrite <- !app_assoc.
  - exists (w_fs w1),
      ([EvLog INFO "Starting Controll Supervisor Add-on"] ++ evs ++
       [EvLog ERROR ("Failed to install branding: " +:+ exn_str e)]).
    split.
    + cbn [w_fs w_trace]. rewrite Htr. unfold w0. cbn [w_trace].
      by rewrite <- !app_assoc.
    + intros e' [= <-]. rewrite !elem_of_app. right. right.
      by apply list_elem_of_singleton.
Qed.

(** X20: the add-on list handler answers with an empty list when the
    Supervisor's answer has no [data] or no [addons] key, and with a
    failure when [data] is not an object. *)
Theorem addon_list_defaults
    (o : options) (sup : string) (net : http_env) (rq : request)
    (kv : list (string * json)) (w : world) :
  verify_token o rq = true →
  http_get_json net (SUPERVISOR_API +:+ "/addons") = Ok (JDict kv) →
  (handle_addon_list o sup net rq w).1
  = Ok (match dict_get kv "data" with
        | None => json_response [("success", JBool true); ("addons", JList [])] 200
        | Some (JDict inner) =>
            json_response [ ("success", JBool true);
                            ("addons", default (JList []) (dict_get inner "addons")) ] 200
        | Some other =>
            error_response
              (AttributeError ("'" +:+ type_name other +:+ "' object has no attribute 'get'"))
        end).
Proof.
  intros Hv Hg. unfold handle_addon_list, try_except. rewrite Hv. cbn [negb].
  unfold mbind, M_bind, bind, of_result. rewrite session_get_json_run, Hg.
  cbn [py_get]. destruct (dict_get kv "data") as [[| | | | |inner]|]; done.
Qed.

Lemma addon_list_defaults_witness :
  let o := Options (Some "tok") None None in
  let rq := Request [("Authorization", "Bearer tok")] (Ok ∅) in
  let net := HttpEnv (λ _, Ok (JDict [("result", JStr "ok")])) (λ _ _, Ok 200) in
  (handle_addon_list o "t" net rq (World ∅ [])).1
  = Ok (json_response [("success", JBool true); ("addons", JList [])] 200).
Proof.
  intros o rq net.
  exact (addon_list_defaults o "t" net rq [("result", JStr "ok")] (World ∅ [])
           eq_refl eq_refl).
Defined.

Lemma other_routes_keep_files_witness :
  let o := Options (Some "tok") None None in
  let f : fs := <[ ["config"; "a.txt"] := File "hi" ]> {[ ["config"] := Dir ]} in
  (FileRead ∉ [FileWrite; ThemeInstall; Branding])
  ∧ (w_fs (handle_file_read o plain_request {[ "path" := "a.txt" ]} (World f [])).2 = f).
Proof.
  intros o f.
  assert (FileRead ∉ [FileWrite; ThemeInstall; Branding]) as H.
  { rewrite !not_elem_of_cons. repeat split; try done. apply not_elem_of_nil. }
  split; [exact H|].
  exact (other_routes_keep_files o "" (HttpEnv (λ _, Ok JNull) (λ _ _, Ok 200))
           (HttpMore (λ _ _, Ok JNull) (λ _, Ok (200, Ok "")))
           true (λ w, (([], None), w)) "" FileRead plain_request
           {[ "path" := "a.txt" ]} (World f []) H).
Defined.

Lemma handle_file_write_confined_witness :
  let o := Options (Some "tok") None None in
  let w := World {[ ["config"] := Dir ]} [] in
  let q := ["config"; "www"; "a.txt"] in
  w_fs (handle_file_write o (write_request "www/a.txt" "hi") w).2 !! q ≠ w_fs w !! q
  ∧ ∃ rest, q = "config" :: rest.
Proof.
  intros o w q.
  assert (w_fs (handle_file_write o (write_request "www/a.txt" "hi") w).2 !! q ≠ w_fs w !! q)
    as H by (vm_compute; discriminate).
  split; [exact H|].
  exact (handle_file_write_confined o (write_request "www/a.txt" "hi") w q H).
Defined.

Lemma file_write_then_read_witness :
  let o := Options (Some "tok") None None in
  let w := World {[ ["config"] := Dir ]} [] in
  let r := handle_file_write o (write_request "www/a.txt" "hi") w in
  (handle_file_read o plain_request {[ "path" := "www/a.txt" ]} r.2).1
  = Ok (json_response [("success", JBool true); ("content", JStr "hi")] 200).
Proof.
  intros o w r.
  destruct r as [[resp|e] w'] eqn:Hr; [|discriminate Hr].
  assert (status resp = 200) as Hs by (by injection Hr as <- <-).
  exact (file_write_then_read o (write_request "www/a.txt" "hi") plain_request
           (<["path" := "www/a.txt"]> (<["content" := "hi"]> ∅)) {[ "path" := "www/a.txt" ]}
           "www/a.txt" "hi" w w' resp eq_refl eq_refl eq_refl eq_refl Hr Hs eq_refl eq_refl).
Defined.

Lemma theme_install_last_write_wins_witness :
  let o := Options (Some "tok") None None in
  let w := World (<[themes_dir ++ ["controll.yaml"] := File "primary-color: orange"]>
                    (<[themes_dir := Dir]> {[ ["config"] := Dir ]})) [] in
  let r := handle_install_theme o (theme_request "controll" "v2") w in
  w_fs r.2 !! (themes_dir ++ ["controll.yaml"]) = Some (File "v2").
Proof.
  intros o w r.
  destruct r as [[resp|e] w'] eqn:Hr; [|discriminate Hr].
  assert (status resp = 200) as Hs by (by injection Hr as <- <-).
  exact (theme_install_last_write_wins o (theme_request "controll" "v2")
           (<["name" := "controll"]> (<["content" := "v2"]> ∅)) w w' resp
           eq_refl eq_refl Hr Hs).
Defined.

Lemma send_heartbeat_silent_without_token_witness :
  let o := Options None None None in
  let net := HttpEnv (λ _, Ok JNull) (λ _ _, Ok 200) in
  HUB_TOKEN o = ""
  ∧ forallb (λ e, negb (is_http e)) (events_of (send_heartbeat o "t" net 3) (World ∅ [])) = true.
Proof.
  intros o net. split; [reflexivity|].
  exact (send_heartbeat_silent_without_token o "t" net 3 (World ∅ []) eq_refl).
Defined.

Lemma ha_service_unchecked_names_witness :
  let o := Options (Some "tok") None None in
  let more := HttpMore (λ _ _, Ok (JList [])) (λ _, Ok (200, Ok "")) in
  let kv := [ ("service", JInt 7); ("data", JDict [("entity_id", JStr "light.hall")]) ] in
  verify_token o plain_request = true
  ∧ EvHttp "POST" "http://supervisor/core/api/services/None/7"
      (get_supervisor_headers "t") (Some (JDict [("entity_id", JStr "light.hall")]))
    ∈ events_of (handle_ha_service o "t" more plain_request (Ok (JDict kv))) (World ∅ []).
Proof.
  intros o more kv.
  assert (verify_token o plain_request = true) as Hv by reflexivity.
  split; [exact Hv|].
  exact (proj1 (ha_service_unchecked_names o "t" more plain_request kv JNull (World ∅ []) Hv)).
Defined.
